(** * MachampSeq2SeqDecoder: a shallow embedding of
    [machamp/models/seq2seq_decoder.py]

    The decoder is tensor code on top of torch and allennlp.  The embedding
    keeps what the Python file itself decides (which token is fed to the
    recurrent cell, which layer of the hidden state is read, how targets and
    mask are aligned with the logits, how the loss is scaled, how predictions
    are trimmed) and takes the numeric kernels of torch and allennlp
    (embedding lookup, LSTM cells, the linear projection, softmax, attention,
    the masked cross entropy) as the fields of a type class.

    Conventions.
    - A long tensor of shape [(batch,)] is a [list Z]; one of shape
      [(batch, n)] is a [Tensor2 Z].
    - A float is read as the rational it denotes ([Q]); rounding is not
      modelled.
    - Every torch operation used by the step function (embedding lookup,
      [LSTMCell], [LSTM], [Linear], [cat] and [softmax] over the last
      dimension, allennlp's attention and [weighted_sum]) acts on the rows of
      the batch independently.  A float tensor whose first dimension is the
      batch is therefore a list of rows, and the decoder state, a dict of
      such tensors in the source, is a list with one record per row.
    - The global random generator, the inputs given to the step function and
      the updates of the BLEU metric are the fields of a [World] threaded
      through a state-and-exception monad. *)

From Stdlib Require Import String.
From Stdlib Require Import List ZArith QArith Bool Arith Lia.
Import ListNotations.
Close Scope Q_scope.
Local Open Scope nat_scope.

Set Implicit Arguments.

(** ** Exceptions, results and the monad of the model *)

Inductive exn : Type :=
| RuntimeError
| IndexError
| KeyError
| ValueError
| AttributeError.

Inductive result (A : Type) : Type :=
| Ok (a : A)
| Raise (e : exn).

Arguments Ok {A} a.
Arguments Raise {A} e.

Definition rbind {A B : Type} (r : result A) (k : A -> result B) : result B :=
  match r with
  | Ok a => k a
  | Raise e => Raise e
  end.

Fixpoint rmapM {A B : Type} (f : A -> result B) (l : list A) : result (list B) :=
  match l with
  | [] => Ok []
  | x :: l' => rbind (f x) (fun y => rbind (rmapM f l') (fun ys => Ok (y :: ys)))
  end.

(** Whether a computation returned. *)
Definition is_Ok {A : Type} (r : result A) : bool :=
  match r with
  | Ok _ => true
  | Raise _ => false
  end.

(** The part of the process the decoder reads and writes besides its
    arguments: the stream of numbers [torch.rand(1).item()] will return and how
    many of them were taken; the token ids handed to the step function, oldest
    first; the pairs given to the BLEU metric. *)
Record World : Type := mkWorld {
  rng : nat -> Q;
  drawn : nat;
  fed : list (list Z);
  bleu_updates : list (list (list Z) * list (list Z))
}.

Definition M (A : Type) : Type := World -> result (A * World).

Definition ret {A : Type} (a : A) : M A := fun w => Ok (a, w).

Definition bind {A B : Type} (m : M A) (k : A -> M B) : M B :=
  fun w => match m w with
           | Ok (a, w') => k a w'
           | Raise e => Raise e
           end.

Definition lift {A : Type} (r : result A) : M A :=
  fun w => match r with
           | Ok a => Ok (a, w)
           | Raise e => Raise e
           end.

Definition raise {A : Type} (e : exn) : M A := fun _ => Raise e.

Declare Scope monad_scope.
Delimit Scope monad_scope with monad.
Notation "x <- m ;; k" := (bind m (fun x => k))
  (at level 61, m at next level, right associativity) : monad_scope.
Notation "' p <- m ;; k" := (bind m (fun p => k))
  (at level 61, p pattern, m at next level, right associativity) : monad_scope.
Notation "m ;;; k" := (bind m (fun _ => k))
  (at level 61, right associativity) : monad_scope.
Local Open Scope monad_scope.

Fixpoint mapM {A B : Type} (f : A -> M B) (l : list A) : M (list B) :=
  match l with
  | [] => ret []
  | x :: l' => y <- f x ;; ys <- mapM f l' ;; ret (y :: ys)
  end.

(** [torch.rand(1).item()]: the next number of the generator. *)
Definition torch_rand : M Q :=
  fun w => Ok (rng w (drawn w),
               mkWorld (rng w) (S (drawn w)) (fed w) (bleu_updates w)).

(** Records that the step function was entered with [ids]. *)
Definition enter_step (ids : list Z) : M unit :=
  fun w => Ok (tt, mkWorld (rng w) (drawn w) (fed w ++ [ids]) (bleu_updates w)).

(** [self._bleu(predictions, gold)]. *)
Definition bleu_call (predictions gold : list (list Z)) : M unit :=
  fun w => Ok (tt, mkWorld (rng w) (drawn w) (fed w)
                          (bleu_updates w ++ [(predictions, gold)])).

(** ** Tensors *)

(** A tensor of shape [(length rows2, shape1)]; every row has [shape1]
    entries ([wf_tensor2]). *)
Record Tensor2 (A : Type) : Type := mkTensor2 {
  shape1 : nat;
  rows2 : list (list A)
}.

Definition wf_tensor2 {A : Type} (t : Tensor2 A) : Prop :=
  Forall (fun r => length r = shape1 t) (rows2 t).

(** [t[:, i]]; an index past the last column raises. *)
Definition column {A : Type} (d : A) (t : Tensor2 A) (i : nat) : result (list A) :=
  if i <? shape1 t then Ok (map (fun r => nth i r d) (rows2 t))
  else Raise IndexError.

(** [t[:, 1:]] *)
Definition slice_from_1 {A : Type} (t : Tensor2 A) : Tensor2 A :=
  mkTensor2 (shape1 t - 1) (map (skipn 1) (rows2 t)).

(** [t[b, i]] for a reader of the model, with [d] out of range. *)
Definition entry {A : Type} (d : A) (t : Tensor2 A) (b i : nat) : A :=
  nth i (nth b (rows2 t) []) d.

(** [source_mask.new_full((batch_size,), fill_value=v)] *)
Definition new_full (batch_size : nat) (v : Z) : list Z := repeat v batch_size.

(** [torch.cat([s.unsqueeze(1) for s in steps], 1)]: the steps become the
    second dimension.  [torch.cat] refuses an empty list. *)
Definition cat_dim1 {A : Type} (d : A) (steps : list (list A)) : result (list (list A)) :=
  match steps with
  | [] => Raise RuntimeError
  | s0 :: _ => Ok (map (fun b => map (fun s => nth b s d) steps) (seq 0 (length s0)))
  end.

Definition Qltb (x y : Q) : bool := negb (Qle_bool y x).

(** Index of the first largest entry, as [torch.max(row, -1)] and a stable
    descending sort pick it.  [best] is the largest entry so far, found at
    [besti]; [i] is the index of the head of the list. *)
Fixpoint argmax_from (l : list Q) (i : nat) (best : Q) (besti : nat) : nat :=
  match l with
  | [] => besti
  | x :: l' => if Qltb best x then argmax_from l' (S i) x i
               else argmax_from l' (S i) best besti
  end.

Definition argmax (row : list Q) : result Z :=
  match row with
  | [] => Raise RuntimeError
  | x :: l => Ok (Z.of_nat (argmax_from l 1 x 0))
  end.

(** [torch.max(t, 1)[1]] on a [(batch, classes)] tensor. *)
Definition torch_max_dim1 (t : list (list Q)) : result (list Z) := rmapM argmax t.

Declare Scope result_scope.
Notation "x <~ r ;; k" := (rbind r (fun x => k))
  (at level 61, r at next level, right associativity) : result_scope.
Notation "' p <~ r ;; k" := (rbind r (fun p => k))
  (at level 61, p pattern, r at next level, right associativity) : result_scope.
Local Open Scope result_scope.

(** ** The collaborators: vocabulary, torch and allennlp *)

(** allennlp's [Vocabulary], as far as the decoder consults it.  The second
    argument of the lookups is the namespace. *)
Record Vocabulary : Type := mkVocabulary {
  _padding_token : string;
  get_token_index : string -> string -> result Z;
  get_token_from_index : Z -> string -> result string;
  get_vocab_size : string -> Z
}.

(** The numeric kernels.  [vec] is one row of a float tensor (an embedding, a
    hidden state, an attended context), [enc] the encoder outputs of one batch
    element.  A module constructor ([Embedding], [LSTMCell], [LSTM],
    [Linear]) returns the function its instance computes on one row; a source
    mask row is a [list bool]. *)
Class Torch : Type := mkTorch {
  vec : Type;
  enc : Type;
  (** [Embedding(num_embeddings, embedding_dim, padding_index)] *)
  Embedding : Z -> Z -> Z -> Z -> result vec;
  (** [LSTMCell(input_size, hidden_size)]: input, (hidden, context) to
      (hidden, context) *)
  LSTMCell : Z -> Z -> vec -> vec * vec -> vec * vec;
  (** [LSTM(input_size, hidden_size, num_layers)]: the cells of its layers,
      the one that reads the input first *)
  LSTM : Z -> Z -> Z -> list (vec -> vec * vec -> vec * vec);
  (** [Linear(in_features, out_features)] *)
  Linear : Z -> Z -> vec -> list Q;
  (** [torch.cat((a, b), -1)] *)
  torch_cat : vec -> vec -> vec;
  softmax : list Q -> list Q;
  log_softmax : list Q -> list Q;
  (** a row of [new_zeros(batch_size, dim)] *)
  new_zeros : Z -> vec;
  (** [torch.log(torch.tensor(n))] *)
  torch_log : Z -> Q;
  (** [util.get_final_encoder_states(.., bidirectional=False)] on one row *)
  get_final_encoder_states : enc -> list bool -> vec;
  (** [util.weighted_sum] on one row *)
  weighted_sum : enc -> vec -> vec;
  get_text_field_mask : Tensor2 Z -> Tensor2 bool;
  sequence_cross_entropy_with_logits :
    list (list (list Q)) -> Tensor2 Z -> Tensor2 bool -> result Q
}.

Section Decoder.

Context {T : Torch}.

(** An [Attention] module on one row: query, encoder outputs, mask to
    weights. *)
Definition Attention : Type := vec -> enc -> list bool -> vec.

Definition cell_fn : Type := vec -> vec * vec -> vec * vec.

Inductive DecoderCell : Type :=
| IsLSTMCell (f : cell_fn)
| IsLSTM (layers : list cell_fn).

(** A row of [decoder_hidden] or [decoder_context]: of a [(batch, dim)]
    tensor, or of a [(num_layers, batch, dim)] tensor, then with the layers in
    the order of the first dimension. *)
Inductive hidden : Type :=
| Flat (h : vec)
| Stacked (hs : list vec).

(** The dict [{"encoder_outputs": .., "source_mask": ..}] that [forward]
    starts from. *)
Record Source : Type := mkSource {
  src_encoder_outputs : list enc;
  src_source_mask : list (list bool)
}.

(** One row of the initialised state dict. *)
Record RowState : Type := mkRowState {
  encoder_outputs : enc;
  source_mask : list bool;
  decoder_hidden : hidden;
  decoder_context : hidden
}.

Definition State : Type := list RowState.

(** The two keys of a state that [_init_decoder_state] reads. *)
Definition source_of (state : State) : Source :=
  mkSource (map encoder_outputs state) (map source_mask state).

Record BLEU : Type := mkBLEU {
  ngram_weights : list Q;
  exclude_indices : list Z
}.

Record BeamSearch : Type := mkBeamSearch {
  bs_end_index : Z;
  bs_max_steps : Z;
  bs_beam_size : Z
}.

Record LinearLayer : Type := mkLinear {
  out_features : Z;
  apply_linear : vec -> list Q
}.

Record MachampSeq2SeqDecoder : Type := mkDecoder {
  training : bool;
  task : string;
  vocab : Vocabulary;
  loss_weight : Q;
  _target_namespace : string;
  _target_decoder_layers : Z;
  _scheduled_sampling_ratio : Q;
  _start_index : Z;
  _end_index : Z;
  _bleu : option BLEU;
  _max_decoding_steps : Z;
  _beam_search : BeamSearch;
  _attention : option Attention;
  _target_embedder : Z -> result vec;
  _encoder_output_dim : Z;
  _decoder_output_dim : Z;
  _decoder_input_dim : Z;
  _decoder_cell : DecoderCell;
  _output_projection_layer : LinearLayer
}.

(** [Module.train(mode)]; [eval()] is [train false]. *)
Definition train (mode : bool) (self : MachampSeq2SeqDecoder) : MachampSeq2SeqDecoder :=
  mkDecoder mode (task self) (vocab self) (loss_weight self)
    (_target_namespace self) (_target_decoder_layers self)
    (_scheduled_sampling_ratio self) (_start_index self) (_end_index self)
    (_bleu self) (_max_decoding_steps self) (_beam_search self)
    (_attention self) (_target_embedder self) (_encoder_output_dim self)
    (_decoder_output_dim self) (_decoder_input_dim self) (_decoder_cell self)
    (_output_projection_layer self).

(** The arguments of the constructor; [None] is Python's [None]. *)
Record InitArgs : Type := mkInitArgs {
  arg_task : string;
  arg_vocab : Vocabulary;
  arg_input_dim : Z;
  arg_max_decoding_steps : Z;
  arg_loss_weight : Q;
  arg_attention : option Attention;
  arg_beam_size : option Z;
  arg_target_embedding_dim : option Z;
  arg_scheduled_sampling_ratio : Q;
  arg_use_bleu : bool;
  arg_bleu_ngram_weights : list Q;
  arg_dataset_embeds_dim : Z;
  arg_target_decoder_layers : Z
}.

(** Python's [x or y] on an optional int: [None] and [0] are false. *)
Definition truthy (x : option Z) : option Z :=
  match x with
  | Some v => if (v =? 0)%Z then None else Some v
  | None => None
  end.

Definition __init__ (a : InitArgs) : result MachampSeq2SeqDecoder :=
  let vocab := arg_vocab a in
  let _target_namespace := "target_words"%string in
  let _target_decoder_layers := arg_target_decoder_layers a in
  let _start_index := 2%Z in
  let _end_index := 3%Z in
  pad_index <~ get_token_index vocab (_padding_token vocab) _target_namespace ;;
  let _bleu :=
    if arg_use_bleu a
    then Some (mkBLEU (arg_bleu_ngram_weights a) [pad_index; _end_index; _start_index])
    else None in
  let beam_size := match truthy (arg_beam_size a) with Some b => b | None => 1%Z end in
  let _max_decoding_steps := arg_max_decoding_steps a in
  let _beam_search := mkBeamSearch _end_index _max_decoding_steps beam_size in
  let num_classes := get_vocab_size vocab _target_namespace in
  let _attention := arg_attention a in
  (* [target_embedding_dim or self._encoder_output_dim]: the attribute is
     assigned further down only, so reading it here raises *)
  target_embedding_dim <~
    match truthy (arg_target_embedding_dim a) with
    | Some d => Ok d
    | None => Raise AttributeError
    end ;;
  let _target_embedder := Embedding num_classes target_embedding_dim pad_index in
  let _encoder_output_dim := (arg_input_dim a + arg_dataset_embeds_dim a)%Z in
  let _decoder_output_dim := _encoder_output_dim in
  let _decoder_input_dim :=
    match _attention with
    | Some _ => (_decoder_output_dim + target_embedding_dim)%Z
    | None => target_embedding_dim
    end in
  let _decoder_cell :=
    if (1 <? _target_decoder_layers)%Z
    then IsLSTM (LSTM _decoder_input_dim _decoder_output_dim _target_decoder_layers)
    else IsLSTMCell (LSTMCell _decoder_input_dim _decoder_output_dim) in
  let _output_projection_layer :=
    mkLinear num_classes (Linear _decoder_output_dim num_classes) in
  Ok (mkDecoder true (arg_task a) vocab (arg_loss_weight a) _target_namespace
        _target_decoder_layers (arg_scheduled_sampling_ratio a) _start_index
        _end_index _bleu _max_decoding_steps _beam_search _attention
        _target_embedder _encoder_output_dim _decoder_output_dim
        _decoder_input_dim _decoder_cell _output_projection_layer).

(** ** The decoder state and the step function *)

(** The source repeats one computation for every row of the batch; a batch
    whose two tensors disagree on the batch size is refused by
    [get_final_encoder_states]. *)
Definition _init_decoder_state (self : MachampSeq2SeqDecoder) (state : Source)
  : result State :=
  let batch_size := length (src_source_mask state) in
  if length (src_encoder_outputs state) =? batch_size then
    Ok (map (fun em : enc * list bool =>
               let final_encoder_output :=
                 get_final_encoder_states (fst em) (snd em) in
               let decoder_hidden := final_encoder_output in
               let decoder_context := new_zeros (_decoder_output_dim self) in
               if (1 <? _target_decoder_layers self)%Z then
                 let n := Z.to_nat (_target_decoder_layers self) in
                 mkRowState (fst em) (snd em)
                   (Stacked (repeat decoder_hidden n))
                   (Stacked (repeat decoder_context n))
               else
                 mkRowState (fst em) (snd em)
                   (Flat decoder_hidden) (Flat decoder_context))
            (combine (src_encoder_outputs state) (src_source_mask state)))
  else Raise RuntimeError.

(** [decoder_hidden[0]] on a [(num_layers, batch, dim)] tensor.  On a
    [(batch, dim)] tensor the index selects a batch element and the attention
    that follows rejects its shape. *)
Definition index_first (h : hidden) : result vec :=
  match h with
  | Stacked (h0 :: _) => Ok h0
  | Stacked [] => Raise IndexError
  | Flat _ => Raise RuntimeError
  end.

(** [decoder_hidden[-1]] on a [(num_layers, batch, dim)] tensor. *)
Definition index_last (h : hidden) : result vec :=
  match h with
  | Stacked (h0 :: hs) => Ok (last hs h0)
  | Stacked [] => Raise IndexError
  | Flat _ => Raise RuntimeError
  end.

(** A [(batch, dim)] tensor where the callee takes nothing else. *)
Definition as_flat (h : hidden) : result vec :=
  match h with
  | Flat v => Ok v
  | Stacked _ => Raise RuntimeError
  end.

(** Modelled from the spec: the forward pass of a stacked [torch.nn.LSTM] on
    a sequence of length one, which is not under src.  Section 4.3: the
    stacked variant chains one cell per layer, each layer's output feeding the
    next layer's input at the same timestep.  The result lists the new hidden
    and context of every layer in the order of the layers. *)
Fixpoint lstm_layers (cells : list cell_fn) (x : vec) (hs cs : list vec)
  : result (list vec * list vec) :=
  match cells, hs, cs with
  | [], [], [] => Ok ([], [])
  | f :: cells', h :: hs', c :: cs' =>
      let hc := f x (h, c) in
      ' (hs'', cs'') <~ lstm_layers cells' (fst hc) hs' cs' ;;
      Ok (fst hc :: hs'', snd hc :: cs'')
  | _, _, _ => Raise RuntimeError
  end.

(** [_, (h, c) = self._decoder_cell(input.unsqueeze(0), (h, c))] *)
Definition call_LSTM (cell : DecoderCell) (x : vec) (h c : hidden)
  : result (hidden * hidden) :=
  match cell, h, c with
  | IsLSTM layers, Stacked hs, Stacked cs =>
      ' (hs', cs') <~ lstm_layers layers x hs cs ;;
      Ok (Stacked hs', Stacked cs')
  | _, _, _ => Raise RuntimeError
  end.

(** [h, c = self._decoder_cell(input, (h, c))] *)
Definition call_LSTMCell (cell : DecoderCell) (x : vec) (h c : hidden)
  : result (hidden * hidden) :=
  match cell, h, c with
  | IsLSTMCell f, Flat hv, Flat cv =>
      let hc := f x (hv, cv) in Ok (Flat (fst hc), Flat (snd hc))
  | _, _, _ => Raise RuntimeError
  end.

Definition _prepare_attended_input (attention : Attention)
    (decoder_hidden_state : vec) (encoder_outputs : enc)
    (encoder_outputs_mask : list bool) : vec :=
  let input_weights :=
    attention decoder_hidden_state encoder_outputs encoder_outputs_mask in
  let attended_input := weighted_sum encoder_outputs input_weights in
  attended_input.

(** The hidden state handed to the attention as its query (the first argument
    of [_prepare_attended_input] in [_prepare_output_projections]). *)
Definition attention_query (self : MachampSeq2SeqDecoder) (decoder_hidden : hidden)
  : result vec :=
  if (1 <? _target_decoder_layers self)%Z then index_first decoder_hidden
  else as_flat decoder_hidden.

(** The value of the local [decoder_input] of [_prepare_output_projections]
    before the recurrent cell is called, on one row. *)
Definition decoder_input (self : MachampSeq2SeqDecoder) (last_prediction : Z)
    (state : RowState) : result vec :=
  embedded_input <~ _target_embedder self last_prediction ;;
  match _attention self with
  | Some attention =>
      query <~ attention_query self (decoder_hidden state) ;;
      let attended_input :=
        _prepare_attended_input attention query
          (encoder_outputs state) (source_mask state) in
      Ok (torch_cat attended_input embedded_input)
  | None => Ok embedded_input
  end.

(** [_prepare_output_projections] on one row of the group. *)
Definition _prepare_output_projections_row (self : MachampSeq2SeqDecoder)
    (last_prediction : Z) (state : RowState) : result (list Q * RowState) :=
  decoder_input <~ decoder_input self last_prediction state ;;
  ' (decoder_hidden, decoder_context) <~
    (if (1 <? _target_decoder_layers self)%Z
     then call_LSTM (_decoder_cell self) decoder_input
            (decoder_hidden state) (decoder_context state)
     else call_LSTMCell (_decoder_cell self) decoder_input
            (decoder_hidden state) (decoder_context state)) ;;
  let state :=
    mkRowState (encoder_outputs state) (source_mask state)
      decoder_hidden decoder_context in
  output_projections <~
    (if (1 <? _target_decoder_layers self)%Z
     then top <~ index_last decoder_hidden ;;
          Ok (apply_linear (_output_projection_layer self) top)
     else h <~ as_flat decoder_hidden ;;
          Ok (apply_linear (_output_projection_layer self) h)) ;;
  Ok (output_projections, state).

(** The group: one prediction per row of the state. *)
Definition _prepare_output_projections (self : MachampSeq2SeqDecoder)
    (last_predictions : list Z) (state : State) : M (list (list Q) * State) :=
  enter_step last_predictions ;;;
  if length last_predictions =? length state then
    rows <- lift (rmapM (fun ps : Z * RowState =>
                           _prepare_output_projections_row self (fst ps) (snd ps))
                        (combine last_predictions state)) ;;
    ret (map fst rows, map snd rows)
  else raise RuntimeError.

Definition take_step (self : MachampSeq2SeqDecoder) (last_predictions : list Z)
    (state : State) (step : nat) : M (list (list Q) * State) :=
  ' (output_projections, state) <-
    _prepare_output_projections self last_predictions state ;;
  let class_log_probabilities := map log_softmax output_projections in
  ret (class_log_probabilities, state).

(** ** Loss *)

Definition _get_loss (logits : list (list (list Q))) (targets : Tensor2 Z)
    (target_mask : Tensor2 bool) : result Q :=
  let relevant_targets := slice_from_1 targets in
  let relevant_mask := slice_from_1 target_mask in
  sequence_cross_entropy_with_logits logits relevant_targets relevant_mask.

(** ** The training loop *)

(** An array of predicted ids: [(batch, steps)] from the loop,
    [(batch, beam, steps)] from beam search. *)
Inductive ndarray : Type :=
| Dim2 (a : list (list Z))
| Dim3 (a : list (list (list Z))).

(** The result dict; an absent key is [None]. *)
Record OutputDict : Type := mkOutput {
  predictions : option ndarray;
  class_probabilities : option ndarray;
  loss : option Q;
  class_log_probabilities : option (list (list Q))
}.

Definition empty_dict : OutputDict := mkOutput None None None None.

(** [target_tokens["tokens"]["tokens"]]; a missing or empty dict is [None]. *)
Definition TextFieldTensors : Type := Tensor2 Z.

(** The choice of [input_choices] at one timestep; [draw] is [None] when the
    generator was not asked. *)
Definition input_choices (self : MachampSeq2SeqDecoder)
    (target_tokens : option TextFieldTensors) (timestep : nat)
    (draw : option Q) (last_predictions : list Z) : result (list Z) :=
  let sampled :=
    match draw with
    | Some r => Qltb r (_scheduled_sampling_ratio self)
    | None => false
    end in
  if sampled then Ok last_predictions
  else match target_tokens with
       | None => Ok last_predictions
       | Some targets => column 0%Z targets timestep
       end.

(** The body of [for timestep in range(num_decoding_steps)], over the
    timesteps still to run. *)
Fixpoint _forward_loop_for (self : MachampSeq2SeqDecoder)
    (target_tokens : option TextFieldTensors) (timesteps : list nat)
    (last_predictions : list Z) (state : State)
    (step_logits : list (list (list Q))) (step_predictions : list (list Z))
  : M (State * list (list (list Q)) * list (list Z)) :=
  match timesteps with
  | [] => ret (state, step_logits, step_predictions)
  | timestep :: rest =>
      draw <- (if training self
               then r <- torch_rand ;; ret (Some r)
               else ret None) ;;
      input_choices <-
        lift (input_choices self target_tokens timestep draw last_predictions) ;;
      ' (output_projections, state) <-
        _prepare_output_projections self input_choices state ;;
      let step_logits := step_logits ++ [output_projections] in
      let class_probabilities := map softmax output_projections in
      predicted_classes <- lift (torch_max_dim1 class_probabilities) ;;
      let last_predictions := predicted_classes in
      let step_predictions := step_predictions ++ [last_predictions] in
      _forward_loop_for self target_tokens rest last_predictions state
        step_logits step_predictions
  end.

Definition num_decoding_steps (self : MachampSeq2SeqDecoder)
    (target_tokens : option TextFieldTensors) : nat :=
  match target_tokens with
  | Some targets => shape1 targets - 1
  | None => Z.to_nat (_max_decoding_steps self)
  end.

Definition _forward_loop (self : MachampSeq2SeqDecoder) (state : State)
    (target_tokens : option TextFieldTensors) : M (OutputDict * State) :=
  let batch_size := length state in
  let num_decoding_steps := num_decoding_steps self target_tokens in
  let last_predictions := new_full batch_size (_start_index self) in
  ' (state, step_logits, step_predictions) <-
    _forward_loop_for self target_tokens (seq 0 num_decoding_steps)
      last_predictions state [] [] ;;
  predictions <- lift (cat_dim1 0%Z step_predictions) ;;
  let output_dict :=
    mkOutput (Some (Dim2 predictions)) (Some (Dim2 predictions)) None None in
  match target_tokens with
  | Some targets =>
      logits <- lift (cat_dim1 [] step_logits) ;;
      let target_mask := get_text_field_mask targets in
      l <- lift (_get_loss logits targets target_mask) ;;
      let loss := (l * loss_weight self)%Q in
      let loss :=
        (loss / torch_log (out_features (_output_projection_layer self)))%Q in
      ret (mkOutput (Some (Dim2 predictions)) (Some (Dim2 predictions))
             (Some loss) None,
           state)
  | None => ret (output_dict, state)
  end.

(** ** Beam search *)

(** One row of a hypothesis group: the token history so far, the accumulated
    log-probability and the row's own copy of the decoder state. *)
Record Hyp : Type := mkHyp {
  hyp_tokens : list Z;
  hyp_logp : Q;
  hyp_state : RowState
}.

(** The step function the engine is driven by: [take_step]. *)
Definition StepFunction : Type :=
  list Z -> State -> nat -> M (list (list Q) * State).

(** Modelled from the spec: whether a hypothesis has emitted the end marker
    (section 3, Hypothesis Group); after it has, only the end marker is
    appended, so the last token tells. *)
Definition finished (end_index : Z) (h : Hyp) : bool :=
  match rev (hyp_tokens h) with
  | t :: _ => (t =? end_index)%Z
  | [] => false
  end.

(** Modelled from the spec: the expansion step of section 4.7 for one
    hypothesis, the engine [allennlp.nn.beam_search.BeamSearch] not being under
    src.  A live hypothesis calls the step function on its last token (the
    start marker when it has none) and yields one candidate per class, in the
    order of the classes, each with the class's log-probability added; a
    finished one yields the end marker again with log-probability 0 added. *)
Definition expand (step : StepFunction) (end_index start : Z) (h : Hyp)
  : M (list Hyp) :=
  if finished end_index h then
    ret [mkHyp (hyp_tokens h ++ [end_index]) (hyp_logp h + 0)%Q (hyp_state h)]
  else
    ' (log_probabilities, state) <-
      step [last (hyp_tokens h) start] [hyp_state h] (length (hyp_tokens h)) ;;
    match log_probabilities, state with
    | [row], [st] =>
        ret (map (fun cp : nat * Q =>
                    mkHyp (hyp_tokens h ++ [Z.of_nat (fst cp)])
                      (hyp_logp h + snd cp)%Q st)
                 (combine (seq 0 (length row)) row))
    | _, _ => raise RuntimeError
    end.

(** Modelled from the spec: pruning keeps the best hypotheses by cumulative
    log-probability, ties broken by candidate enumeration order (section 4.7):
    a stable insertion sort, largest first. *)
Fixpoint insert_desc (h : Hyp) (l : list Hyp) : list Hyp :=
  match l with
  | [] => [h]
  | x :: l' => if Qle_bool (hyp_logp x) (hyp_logp h) then h :: l
               else x :: insert_desc h l'
  end.

Definition sort_desc (l : list Hyp) : list Hyp :=
  fold_right insert_desc [] l.

(** Modelled from the spec: the search of one batch element (section 4.7).
    [budget] counts the steps left of [max_decoding_steps]; the search stops
    when it is used up or every kept hypothesis has ended. *)
Fixpoint search_element (step : StepFunction) (end_index start : Z)
    (beam_size budget : nat) (beam : list Hyp) : M (list Hyp) :=
  match budget with
  | O => ret beam
  | S budget' =>
      if forallb (finished end_index) beam then ret beam
      else
        candidates <- mapM (expand step end_index start) beam ;;
        search_element step end_index start beam_size budget'
          (firstn beam_size (sort_desc (concat candidates)))
  end.

(** Modelled from the spec: [BeamSearch.search(start_predictions, state,
    step)] (section 4.7): every batch element starts from one hypothesis
    without tokens, with log-probability 0 and its row of the state; the
    result gives, per batch element, the token sequences of the kept
    hypotheses, best first, and their log-probabilities. *)
Definition search (bs : BeamSearch) (start_predictions : list Z) (state : State)
    (step : StepFunction) : M (list (list (list Z)) * list (list Q)) :=
  if length start_predictions =? length state then
    beams <- mapM (fun ps : Z * RowState =>
                     search_element step (bs_end_index bs) (fst ps)
                       (Z.to_nat (bs_beam_size bs)) (Z.to_nat (bs_max_steps bs))
                       [mkHyp [] 0%Q (snd ps)])
                  (combine start_predictions state) ;;
    ret (map (map hyp_tokens) beams, map (map hyp_logp) beams)
  else raise RuntimeError.

Definition _forward_beam_search (self : MachampSeq2SeqDecoder) (state : State)
  : M OutputDict :=
  let batch_size := length state in
  let start_predictions := new_full batch_size (_start_index self) in
  ' (all_top_k_predictions, log_probabilities) <-
    search (_beam_search self) start_predictions state (take_step self) ;;
  ret (mkOutput (Some (Dim3 all_top_k_predictions)) None None
         (Some log_probabilities)).

(** ** [forward] *)

Definition orelse {A : Type} (x y : option A) : option A :=
  match x with
  | Some _ => x
  | None => y
  end.

(** [d.update(e)] *)
Definition update (d e : OutputDict) : OutputDict :=
  mkOutput (orelse (predictions e) (predictions d))
    (orelse (class_probabilities e) (class_probabilities d))
    (orelse (loss e) (loss d))
    (orelse (class_log_probabilities e) (class_log_probabilities d)).

(** [top_k_predictions[:, 0, :]] *)
Definition best_of (top_k_predictions : list (list (list Z)))
  : result (list (list Z)) :=
  rmapM (fun beams : list (list Z) =>
           match beams with
           | b :: _ => Ok b
           | [] => Raise IndexError
           end) top_k_predictions.

(** [output_dict["predictions"]] *)
Definition get_predictions (output_dict : OutputDict) : option ndarray :=
  predictions output_dict.

Definition forward (self : MachampSeq2SeqDecoder) (embedded_text : list enc)
    (source_mask : list (list bool)) (target_tokens : option TextFieldTensors)
  : M OutputDict :=
  let state := mkSource embedded_text source_mask in
  ' (output_dict, state) <-
    match target_tokens with
    | Some _ =>
        state <- lift (_init_decoder_state self state) ;;
        ' (output_dict, state) <- _forward_loop self state target_tokens ;;
        ret (output_dict, source_of state)
    | None => ret (empty_dict, state)
    end ;;
  if negb (training self) then
    state <- lift (_init_decoder_state self state) ;;
    predictions <- _forward_beam_search self state ;;
    let output_dict := update output_dict predictions in
    match target_tokens, _bleu self, get_predictions output_dict with
    | Some targets, Some _, Some (Dim3 top_k_predictions) =>
        best_predictions <- lift (best_of top_k_predictions) ;;
        bleu_call best_predictions (rows2 targets) ;;;
        ret output_dict
    | _, _, _ => ret output_dict
    end
  else ret output_dict.

(** ** The finalizer *)

(** [x in indices] *)
Definition contains (x : Z) (indices : list Z) : bool :=
  existsb (Z.eqb x) indices.

(** [indices.index(x)] *)
Fixpoint list_index (x : Z) (indices : list Z) : result nat :=
  match indices with
  | [] => Raise ValueError
  | y :: l => if (y =? x)%Z then Ok 0
              else i <~ list_index x l ;; Ok (S i)
  end.

(** The body of [for indices in top_k_predictions]. *)
Definition predicted_tokens (self : MachampSeq2SeqDecoder) (indices : list Z)
  : result (list string) :=
  indices <~
    (if contains (_end_index self) indices
     then i <~ list_index (_end_index self) indices ;; Ok (firstn i indices)
     else Ok indices) ;;
  rmapM (fun x => get_token_from_index (vocab self) x (_target_namespace self))
        indices.

(** The argument is the array of predictions itself: the source reads
    [output_dict] where the key ["predictions"] is commented out. *)
Definition make_output_human_readable (self : MachampSeq2SeqDecoder)
    (output_dict : ndarray) : result (list (list (list string))) :=
  let predicted_indices := output_dict in
  match predicted_indices with
  | Dim2 rows =>
      (* [len(top_k_predictions.shape) == 1] *)
      rmapM (fun top_k_predictions : list Z =>
               rmapM (predicted_tokens self) [top_k_predictions]) rows
  | Dim3 a =>
      rmapM (fun top_k_predictions : list (list Z) =>
               rmapM (predicted_tokens self) top_k_predictions) a
  end.

(** ** Companions of the constructor *)

(** Replacing the vocabulary of the arguments and of a constructed decoder. *)
Definition with_vocab (v : Vocabulary) (a : InitArgs) : InitArgs :=
  mkInitArgs (arg_task a) v (arg_input_dim a) (arg_max_decoding_steps a)
    (arg_loss_weight a) (arg_attention a) (arg_beam_size a)
    (arg_target_embedding_dim a) (arg_scheduled_sampling_ratio a)
    (arg_use_bleu a) (arg_bleu_ngram_weights a) (arg_dataset_embeds_dim a)
    (arg_target_decoder_layers a).



(** ** Companions of the loop and of beam search *)

(** The loop without gold targets read on one row of the batch: [k] steps
    from [last_prediction], each feeding the class of largest probability of
    the step before. *)
Fixpoint greedy_row (self : MachampSeq2SeqDecoder) (k : nat) (last_prediction : Z)
    (state : RowState) : result (list Z) :=
  match k with
  | O => Ok []
  | S k' =>
      os <~ _prepare_output_projections_row self last_prediction state ;;
      c <~ argmax (softmax (fst os)) ;;
      rest <~ greedy_row self k' c (snd os) ;;
      Ok (c :: rest)
  end.

(** The ids up to and including the first [end_index]; all of them when
    there is none. *)
Fixpoint through_end (end_index : Z) (ids : list Z) : list Z :=
  match ids with
  | [] => []
  | x :: l => if (x =? end_index)%Z then [x] else x :: through_end end_index l
  end.



(** [w'] is [w] after [draws] more numbers were taken from the generator and
    the step function was entered with [inputs]. *)
Definition extends (w w' : World) (draws : nat) (inputs : list (list Z)) : Prop :=
  rng w' = rng w /\ drawn w' = drawn w + draws /\
  fed w' = fed w ++ inputs /\ bleu_updates w' = bleu_updates w.

(** The number the generator gives at step [i] of a loop started in [w]. *)
Definition draw_at (self : MachampSeq2SeqDecoder) (w : World) (i : nat) : option Q :=
  if training self then Some (rng w (drawn w + i)) else None.

(** The numbers a loop of [k] steps takes from the generator. *)
Definition draws_of (self : MachampSeq2SeqDecoder) (k : nat) : nat :=
  if training self then k else 0.

(** ** Shapes of the decoder state *)

(** The recurrent cell is the one the layer count makes the step function
    call: a stacked [LSTM] with at least one layer when there is more than one
    layer, an [LSTMCell] otherwise. *)
Definition cell_fits (self : MachampSeq2SeqDecoder) : Prop :=
  match _decoder_cell self with
  | IsLSTM cells => (1 <? _target_decoder_layers self)%Z = true /\ cells <> []
  | IsLSTMCell _ => (1 <? _target_decoder_layers self)%Z = false
  end.

(** Hidden state and context of a row have the shape the cell takes: one
    vector each for an [LSTMCell], one vector per layer each for an [LSTM]. *)
Definition shaped (self : MachampSeq2SeqDecoder) (row : RowState) : Prop :=
  match _decoder_cell self, decoder_hidden row, decoder_context row with
  | IsLSTM cells, Stacked hs, Stacked cs =>
      length hs = length cells /\ length cs = length cells
  | IsLSTMCell _, Flat _, Flat _ => True
  | _, _, _ => False
  end.

(** A decoder with another vocabulary and every other attribute as it is. *)
Definition set_vocab (v : Vocabulary) (self : MachampSeq2SeqDecoder)
  : MachampSeq2SeqDecoder :=
  mkDecoder (training self) (task self) v (loss_weight self)
    (_target_namespace self) (_target_decoder_layers self)
    (_scheduled_sampling_ratio self) (_start_index self) (_end_index self)
    (_bleu self) (_max_decoding_steps self) (_beam_search self)
    (_attention self) (_target_embedder self) (_encoder_output_dim self)
    (_decoder_output_dim self) (_decoder_input_dim self) (_decoder_cell self)
    (_output_projection_layer self).

End Decoder.

(** ** A small instance to run the model on

    Vectors are lists of rationals.  The embedding is one-hot, the cell
    that reads the decoder input folds it into the hidden state, the cells of
    higher layers rotate their input, the projection is a cyclic shift (the
    logit of class [k] is the entry [k - 1] of the hidden state), attention is
    an unnormalised masked dot product, and softmax and log-softmax leave the
    scores as they are.  With these a single-layer decoder without attention
    that is fed token [j] predicts [j + 1] modulo the number of classes. *)
Module Toy.

Definition dot (a b : list Q) : Q :=
  fold_right Qplus 0%Q (map (fun xy : Q * Q => (fst xy * snd xy)%Q) (combine a b)).

Definition one_hot (dim : nat) (i : Z) : list Q :=
  map (fun k => if (Z.of_nat k =? i)%Z then 1%Q else 0%Q) (seq 0 dim).

Definition embedding (num dim pad id : Z) : result (list Q) :=
  if ((0 <=? id) && (id <? num))%Z then Ok (one_hot (Z.to_nat dim) id)
  else Raise IndexError.

(** The sum of the consecutive chunks of [x] of [size] entries. *)
Definition fold_chunks (size : nat) (x : list Q) : list Q :=
  map (fun k =>
         fold_right Qplus 0%Q
           (map (fun j => nth (k + j * size) x 0%Q) (seq 0 (S (length x / size)))))
      (seq 0 size).

Definition rotate (x : list Q) : list Q := last x 0%Q :: removelast x.

(** The cell that reads the decoder input: the new hidden state is the
    input folded to the hidden size, the new context the old hidden state. *)
Definition input_cell (hidden_size : Z) (x : list Q) (hc : list Q * list Q)
  : list Q * list Q :=
  (fold_chunks (Z.to_nat hidden_size) x, fst hc).

(** The cell of a higher layer: the new hidden state is its input rotated by
    one place. *)
Definition upper_cell (x : list Q) (hc : list Q * list Q) : list Q * list Q :=
  (rotate x, fst hc).

Definition shift_linear (n_in n_out : Z) (v : list Q) : list Q :=
  map (fun k => nth (Z.to_nat ((Z.of_nat k - 1) mod n_out)) v 0%Q)
      (seq 0 (Z.to_nat n_out)).

Definition vsum (dim : nat) (vs : list (list Q)) : list Q :=
  map (fun k => fold_right Qplus 0%Q (map (fun v => nth k v 0%Q) vs)) (seq 0 dim).

Definition scaled_rows (e : list (list Q)) (w : list Q) : list (list Q) :=
  map (fun rw : list Q * Q => map (Qmult (snd rw)) (fst rw)) (combine e w).

Definition dot_attention (q : list Q) (e : list (list Q)) (m : list bool) : list Q :=
  map (fun rm : list Q * bool => if snd rm then dot q (fst rm) else 0%Q) (combine e m).

Definition count_true (m : list bool) : Z :=
  Z.of_nat (length (filter (fun b => b) m)).

(** Mean over the sequences with an unmasked position of the per-sequence
    mean of one minus the score of the target; shapes must agree. *)
Definition masked_nll (logits : list (list (list Q))) (targets : Tensor2 Z)
    (mask : Tensor2 bool) : result Q :=
  if forallb (fun lt : list (list Q) * list Z => length (fst lt) =? length (snd lt))
             (combine logits (rows2 targets))
     && (length logits =? length (rows2 targets))
     && (shape1 targets =? shape1 mask)
  then
    let per_seq :=
      map (fun x : list (list Q) * (list Z * list bool) =>
             let steps := combine (fst x) (combine (fst (snd x)) (snd (snd x))) in
             let total :=
               fold_right Qplus 0%Q
                 (map (fun s : list Q * (Z * bool) =>
                         if snd (snd s)
                         then (1 - nth (Z.to_nat (fst (snd s))) (fst s) 0)%Q
                         else 0%Q) steps) in
             (total / inject_Z (count_true (snd (snd x))))%Q)
          (combine logits (combine (rows2 targets) (rows2 mask))) in
    let non_empty :=
      Z.of_nat (length (filter (fun m => existsb (fun b => b) m) (rows2 mask))) in
    Ok (fold_right Qplus 0%Q per_seq / inject_Z non_empty)%Q
  else Raise RuntimeError.

#[export] Instance torch : Torch := {|
  vec := list Q;
  enc := list (list Q);
  Embedding := embedding;
  LSTMCell := fun _ hidden_size => input_cell hidden_size;
  LSTM := fun _ hidden_size n =>
            input_cell hidden_size :: repeat upper_cell (Z.to_nat n - 1);
  Linear := shift_linear;
  torch_cat := @app Q;
  softmax := fun x => x;
  log_softmax := fun x => x;
  new_zeros := fun d => repeat 0%Q (Z.to_nat d);
  torch_log := fun n => inject_Z (Z.log2 n);
  get_final_encoder_states := fun e _ => last e [];
  weighted_sum := fun e w => vsum (length (hd [] e)) (scaled_rows e w);
  get_text_field_mask :=
    fun t => mkTensor2 (shape1 t) (map (map (fun x => negb (x =? 0)%Z)) (rows2 t));
  sequence_cross_entropy_with_logits := masked_nll
|}.

Fixpoint index_of (tok : string) (tokens : list string) : option nat :=
  match tokens with
  | [] => None
  | t :: l => if String.eqb t tok then Some 0
              else option_map S (index_of tok l)
  end.

(** A vocabulary with one namespace: the tokens in the order of their ids,
    the first two being padding and the unknown token every absent token maps
    to. *)
Definition vocabulary (tokens : list string) : Vocabulary :=
  mkVocabulary "@@PADDING@@"
    (fun tok _ => match index_of tok tokens with
                  | Some i => Ok (Z.of_nat i)
                  | None => Ok 1%Z
                  end)
    (fun i _ => if (i <? 0)%Z then Raise KeyError
                else match nth_error tokens (Z.to_nat i) with
                     | Some t => Ok t
                     | None => Raise KeyError
                     end)
    (fun _ => Z.of_nat (length tokens)).

Definition tokens6 : list string :=
  ["@@PADDING@@"; "@@UNKNOWN@@"; "[CLS]"; "[SEP]"; "a"; "b"]%string.

(** A vocabulary that knows neither ["[CLS]"] nor ["[SEP]"]. *)
Definition tokens_unmarked : list string :=
  ["@@PADDING@@"; "@@UNKNOWN@@"; "a"; "b"; "c"; "d"]%string.

Definition args (v : Vocabulary) (attention : option Attention) (layers : Z)
    (ratio weight : Q) (steps : Z) : InitArgs :=
  mkInitArgs "mt" v 6%Z steps weight attention None (Some 6%Z) ratio true
    [(1#4)%Q; (1#4)%Q; (1#4)%Q; (1#4)%Q] 0%Z layers.

(** The decoder the constructor returns on [args], a decoder whose fields
    are all zero otherwise (never the case when [args] is well formed). *)
Definition build (a : InitArgs) : MachampSeq2SeqDecoder :=
  match __init__ a with
  | Ok m => m
  | Raise _ =>
      mkDecoder true ""%string (arg_vocab a) 0%Q ""%string 0%Z 0%Q 0%Z 0%Z None
        0%Z (mkBeamSearch 0%Z 0%Z 0%Z) None (fun _ => Raise KeyError) 0%Z 0%Z
        0%Z (IsLSTM []) (mkLinear 0%Z (fun _ => []))
  end.

(** Single layer, no attention, teacher forcing, two decoding steps. *)
Definition plain : MachampSeq2SeqDecoder :=
  build (args (vocabulary tokens6) None 1%Z 0%Q 1%Q 2%Z).

(** Two layers with attention. *)
Definition stacked_attentive : MachampSeq2SeqDecoder :=
  build (args (vocabulary tokens6) (Some dot_attention) 2%Z 0%Q 1%Q 2%Z).

Definition world0 (draws : nat -> Q) : World := mkWorld draws 0 [] [].

(** One source sentence of two positions, both valid. *)
Definition source1 : Source :=
  mkSource [[one_hot 6 4; one_hot 6 5]] [[true; true]].

Definition source2 : Source :=
  mkSource [[one_hot 6 4; one_hot 6 5]; [one_hot 6 1; one_hot 6 0]]
           [[true; true]; [true; false]].

Definition state_of (self : MachampSeq2SeqDecoder) (s : Source) : State :=
  match _init_decoder_state self s with
  | Ok st => st
  | Raise _ => []
  end.

(** Scheduled sampling with ratio one half. *)
Definition sampled : MachampSeq2SeqDecoder :=
  build (args (vocabulary tokens6) None 1%Z (1 # 2)%Q 1%Q 2%Z).

(** Loss weight 2. *)
Definition weighted : MachampSeq2SeqDecoder :=
  build (args (vocabulary tokens6) None 1%Z 0%Q 2%Q 2%Z).

(** A generator that gives 0, 3/4, 0, 3/4, ... *)
Definition alternating (i : nat) : Q := if Nat.even i then 0%Q else (3 # 4)%Q.

(** One target sentence: start marker, ["a"], end marker. *)
Definition targets1 : TextFieldTensors := mkTensor2 3 [[2; 4; 3]%Z].

(** One target sentence that does not begin with the start marker. *)
Definition targets_unmarked : TextFieldTensors := mkTensor2 3 [[4; 5; 3]%Z].

(** The row of [stacked_attentive] on [source1] after one step fed the start
    marker. *)
Definition row1 : RowState :=
  mkRowState [one_hot 6 4; one_hot 6 5] [true; true]
    (Stacked [[0; 0; 1; 0; 0; 1]%Q; [1; 0; 0; 1; 0; 0]%Q])
    (Stacked [one_hot 6 5; one_hot 6 5]).

(** A vocabulary of ten tokens. *)
Definition tokens10 : list string :=
  ["@@PADDING@@"; "@@UNKNOWN@@"; "[CLS]"; "[SEP]"; "a"; "b"; "c"; "d"; "e"; "f"]%string.

Definition ten : MachampSeq2SeqDecoder :=
  build (args (vocabulary tokens10) None 1%Z 0%Q 1%Q 4%Z).

(** The arguments of [plain] with [target_embedding_dim] left at its
    default. *)
Definition args_default_dim : InitArgs :=
  mkInitArgs "mt" (vocabulary tokens6) 6%Z 2%Z 1%Q None None None 0%Q true
    [(1 # 4)%Q; (1 # 4)%Q; (1 # 4)%Q; (1 # 4)%Q] 0%Z 1%Z.

(** [sampled] switched to evaluation mode. *)
Definition evaluating : MachampSeq2SeqDecoder := train false sampled.

End Toy.

(** * Properties *)

Unset Implicit Arguments.

(** ** Results and the monad *)

Lemma rbind_Ok_inv {A B : Type} (r : result A) (k : A -> result B) (b : B) :
  rbind r k = Ok b -> exists a, r = Ok a /\ k a = Ok b.
Proof.
  destruct r as [a | e]; simpl; intros H; [eauto | discriminate].
Qed.

Lemma bind_Ok_inv {A B : Type} (m : M A) (k : A -> M B) (w w' : World) (b : B) :
  bind m k w = Ok (b, w') ->
  exists a w1, m w = Ok (a, w1) /\ k a w1 = Ok (b, w').
Proof.
  unfold bind. destruct (m w) as [[a w1] | e]; intros H; [eauto | discriminate].
Qed.

Lemma lift_Ok_inv {A : Type} (r : result A) (w w' : World) (a : A) :
  lift r w = Ok (a, w') -> r = Ok a /\ w' = w.
Proof.
  unfold lift. destruct r; intros H; inversion H; auto.
Qed.

Lemma ret_Ok_inv {A : Type} (a b : A) (w w' : World) :
  ret a w = Ok (b, w') -> b = a /\ w' = w.
Proof. unfold ret. intros H; inversion H; auto. Qed.

Lemma rmapM_length {A B : Type} (f : A -> result B) (l : list A) (l' : list B) :
  rmapM f l = Ok l' -> length l' = length l.
Proof.
  revert l'. induction l as [| x l IH]; simpl; intros l' H.
  - inversion H; reflexivity.
  - apply rbind_Ok_inv in H as (y & _ & H).
    apply rbind_Ok_inv in H as (ys & Hys & H).
    inversion H; subst. simpl. f_equal. auto.
Qed.

Lemma rmapM_nth {A B : Type} (f : A -> result B) (l : list A) (l' : list B)
    (i : nat) (da : A) (db : B) :
  rmapM f l = Ok l' -> i < length l -> f (nth i l da) = Ok (nth i l' db).
Proof.
  revert l' i. induction l as [| x l IH]; simpl; intros l' i H Hi; [lia |].
  apply rbind_Ok_inv in H as (y & Hy & H).
  apply rbind_Ok_inv in H as (ys & Hys & H).
  inversion H; subst. destruct i as [| i]; simpl; [assumption |].
  apply IH; [assumption | lia].
Qed.

Section Properties.

Context {T : Torch}.

(** ** The constructor *)

Lemma init_inv (a : InitArgs) (m : MachampSeq2SeqDecoder) :
  __init__ a = Ok m ->
  training m = true /\ _start_index m = 2%Z /\ _end_index m = 3%Z /\
  vocab m = arg_vocab a /\ _target_namespace m = "target_words"%string /\
  loss_weight m = arg_loss_weight a /\
  _scheduled_sampling_ratio m = arg_scheduled_sampling_ratio a /\
  _max_decoding_steps m = arg_max_decoding_steps a /\
  _target_decoder_layers m = arg_target_decoder_layers a /\
  _attention m = arg_attention a /\
  bs_end_index (_beam_search m) = 3%Z /\
  bs_max_steps (_beam_search m) = arg_max_decoding_steps a.
Proof.
  unfold __init__. intros H.
  apply rbind_Ok_inv in H as (pad & _ & H).
  apply rbind_Ok_inv in H as (dim & _ & H).
  inversion H; subst; simpl. repeat split; reflexivity.
Qed.

(** C10. For every vocabulary given to the constructor, a constructed decoder
    has start marker 2 and end marker 3 (the end marker of its beam search
    too); the vocabulary does not determine them: another vocabulary, whatever
    ids it holds for the marker tokens, gives the same markers; and switching
    between training and evaluation mode, the one update of an instance the
    model has, leaves them as they are. *)
Theorem init_markers_are_constants (a : InitArgs) (m : MachampSeq2SeqDecoder) :
  __init__ a = Ok m ->
  _start_index m = 2%Z /\ _end_index m = 3%Z /\
  bs_end_index (_beam_search m) = 3%Z /\
  (forall (v : Vocabulary) (m' : MachampSeq2SeqDecoder),
      __init__ (with_vocab v a) = Ok m' ->
      _start_index m' = _start_index m /\ _end_index m' = _end_index m) /\
  (forall mode : bool,
      _start_index (train mode m) = 2%Z /\ _end_index (train mode m) = 3%Z).
Proof.
  intros H. destruct (init_inv a m H) as (_ & Hs & He & _ & _ & _ & _ & _ & _ & _ & Hb & _).
  repeat split; try assumption.
  - destruct (init_inv _ _ H0) as (_ & Hs' & _). congruence.
  - destruct (init_inv _ _ H0) as (_ & _ & He' & _). congruence.
Qed.


(** ** [forward] *)

(** C9. In training mode [forward] without gold targets returns the empty
    dict and leaves the world as it found it: no loss, no predictions, the
    step function is never entered and no random number is drawn. *)
Theorem forward_training_without_targets (self : MachampSeq2SeqDecoder)
    (embedded_text : list enc) (source_mask : list (list bool)) (w : World) :
  training self = true ->
  forward self embedded_text source_mask None w = Ok (empty_dict, w).
Proof.
  intros Htr. unfold forward, bind, ret. simpl. rewrite Htr. reflexivity.
Qed.

(** ** The finalizer *)

Lemma contains_In (x : Z) (l : list Z) : contains x l = true <-> In x l.
Proof.
  unfold contains. rewrite existsb_exists. split.
  - intros (y & Hy & E). apply Z.eqb_eq in E. subst; assumption.
  - intros H. exists x. split; [assumption | apply Z.eqb_refl].
Qed.

Lemma contains_false (x : Z) (l : list Z) : ~ In x l -> contains x l = false.
Proof.
  intros H. destruct (contains x l) eqn:E; [| reflexivity].
  apply contains_In in E. contradiction.
Qed.

Lemma list_index_first (x : Z) (pre post : list Z) :
  ~ In x pre -> list_index x (pre ++ x :: post) = Ok (length pre).
Proof.
  induction pre as [| y pre IH]; simpl; intros H.
  - rewrite Z.eqb_refl. reflexivity.
  - destruct (Z.eqb_spec y x) as [E | _]; [exfalso; auto |].
    rewrite IH by tauto. reflexivity.
Qed.

Lemma firstn_length_app {A : Type} (pre post : list A) :
  firstn (length pre) (pre ++ post) = pre.
Proof.
  induction pre as [| y pre IH]; simpl; [destruct post; reflexivity |].
  rewrite IH. reflexivity.
Qed.

Lemma predicted_tokens_cut (self : MachampSeq2SeqDecoder) (pre post : list Z) :
  ~ In (_end_index self) pre ->
  predicted_tokens self (pre ++ _end_index self :: post) =
  rmapM (fun x => get_token_from_index (vocab self) x (_target_namespace self)) pre.
Proof.
  intros H. unfold predicted_tokens.
  replace (contains (_end_index self) (pre ++ _end_index self :: post)) with true
    by (symmetry; apply contains_In, in_or_app; right; left; reflexivity).
  rewrite list_index_first by assumption. simpl.
  rewrite firstn_length_app. reflexivity.
Qed.

Lemma predicted_tokens_whole (self : MachampSeq2SeqDecoder) (ids : list Z) :
  ~ In (_end_index self) ids ->
  predicted_tokens self ids =
  rmapM (fun x => get_token_from_index (vocab self) x (_target_namespace self)) ids.
Proof.
  intros H. unfold predicted_tokens. rewrite contains_false by assumption.
  reflexivity.
Qed.

(** C5. The finalizer cuts every hypothesis at the first end marker, dropping
    the marker and what follows it, and keeps a hypothesis without end marker
    whole; what remains is mapped id by id through the vocabulary (a lookup
    that raises makes the finalizer raise).  The result has one list per batch
    element, holding one token list per candidate: the candidates of a
    [(batch, beam, steps)] array, the row itself as only candidate for a
    [(batch, steps)] array.  For the ids [5, 9, END, 3, 3] the tokens of 5 and
    9 are returned. *)
Theorem finalizer_trims_at_first_end (self : MachampSeq2SeqDecoder) :
  (forall pre post : list Z,
      ~ In (_end_index self) pre ->
      predicted_tokens self (pre ++ _end_index self :: post) =
      rmapM (fun x => get_token_from_index (vocab self) x (_target_namespace self))
            pre) /\
  (forall ids : list Z,
      ~ In (_end_index self) ids ->
      predicted_tokens self ids =
      rmapM (fun x => get_token_from_index (vocab self) x (_target_namespace self))
            ids) /\
  (forall a : list (list (list Z)),
      make_output_human_readable self (Dim3 a) =
      rmapM (rmapM (predicted_tokens self)) a) /\
  (forall rows : list (list Z),
      make_output_human_readable self (Dim2 rows) =
      rmapM (fun r => rmapM (predicted_tokens self) [r]) rows) /\
  (forall (a : list (list (list Z))) (out : list (list (list string))),
      make_output_human_readable self (Dim3 a) = Ok out ->
      length out = length a /\
      forall b, b < length a -> length (nth b out []) = length (nth b a [])) /\
  (forall (rows : list (list Z)) (out : list (list (list string))),
      make_output_human_readable self (Dim2 rows) = Ok out ->
      length out = length rows /\
      forall b, b < length rows -> length (nth b out []) = 1) /\
  (forall t5 t9 : string,
      _end_index self <> 5%Z -> _end_index self <> 9%Z ->
      get_token_from_index (vocab self) 5%Z (_target_namespace self) = Ok t5 ->
      get_token_from_index (vocab self) 9%Z (_target_namespace self) = Ok t9 ->
      make_output_human_readable self (Dim2 [[5; 9; _end_index self; 3; 3]%Z]) =
      Ok [[[t5; t9]]]).
Proof.
  split; [exact (predicted_tokens_cut self) |].
  split; [exact (predicted_tokens_whole self) |].
  split; [reflexivity |]. split; [reflexivity |].
  split; [| split].
  - intros a out H. simpl in H. split; [exact (rmapM_length _ _ _ H) |].
    intros b Hb.
    pose proof (rmapM_nth _ _ _ b [] [] H Hb) as Hn.
    exact (rmapM_length _ _ _ Hn).
  - intros rows out H. simpl in H. split; [exact (rmapM_length _ _ _ H) |].
    intros b Hb.
    pose proof (rmapM_nth _ _ _ b [] [] H Hb) as Hn. simpl in Hn.
    apply rbind_Ok_inv in Hn as (y & _ & Hn). inversion Hn as [E]. reflexivity.
  - intros t5 t9 H5 H9 L5 L9. simpl.
    change [5; 9; _end_index self; 3; 3]%Z
      with ([5; 9] ++ _end_index self :: [3; 3])%Z.
    rewrite predicted_tokens_cut.
    + simpl. rewrite L5, L9. reflexivity.
    + simpl. intuition congruence.
Qed.

(** ** Loss *)

Lemma nth_skipn_1 {A : Type} (r : list A) (t : nat) (d : A) :
  nth t (skipn 1 r) d = nth (S t) r d.
Proof. destruct r as [| x r]; [destruct t |]; reflexivity. Qed.

Lemma entry_slice_from_1 {A : Type} (d : A) (t : Tensor2 A) (b i : nat) :
  entry d (slice_from_1 t) b i = entry d t b (S i).
Proof.
  unfold entry, slice_from_1. cbn [rows2].
  replace (nth b (map (skipn 1) (rows2 t)) [])
    with (skipn 1 (nth b (rows2 t) []))
    by (symmetry; exact (map_nth (skipn 1) (rows2 t) [] b)).
  apply nth_skipn_1.
Qed.

Lemma wf_slice_from_1 {A : Type} (t : Tensor2 A) :
  wf_tensor2 t -> wf_tensor2 (slice_from_1 t).
Proof.
  unfold wf_tensor2, slice_from_1. cbn [rows2 shape1]. intros H.
  apply Forall_map. eapply Forall_impl; [| exact H].
  intros r Hr. cbn beta in Hr |- *. rewrite length_skipn. lia.
Qed.

(** C3. The loss is the masked cross entropy of the logits against targets
    and mask both without their position 0: entry [t] of the shifted tensors
    is entry [t + 1] of the given ones, so the logit of step [t] meets the
    target token at position [t + 1]; a tensor of [steps + 1] columns leaves
    [steps] columns, one per logit; and what position 0 of targets or mask
    holds does not reach the loss.  The cross entropy and its averaging over
    the unmasked positions are allennlp's
    [sequence_cross_entropy_with_logits]. *)
Theorem get_loss_drops_position_0 (logits : list (list (list Q)))
    (targets : Tensor2 Z) (target_mask : Tensor2 bool) :
  _get_loss logits targets target_mask =
  sequence_cross_entropy_with_logits logits (slice_from_1 targets)
    (slice_from_1 target_mask) /\
  (forall b t : nat,
      entry 0%Z (slice_from_1 targets) b t = entry 0%Z targets b (S t) /\
      entry false (slice_from_1 target_mask) b t = entry false target_mask b (S t)) /\
  (forall steps : nat,
      shape1 targets = S steps -> shape1 target_mask = S steps ->
      shape1 (slice_from_1 targets) = steps /\
      shape1 (slice_from_1 target_mask) = steps) /\
  (wf_tensor2 targets -> wf_tensor2 (slice_from_1 targets)) /\
  (wf_tensor2 target_mask -> wf_tensor2 (slice_from_1 target_mask)) /\
  (forall (targets' : Tensor2 Z) (target_mask' : Tensor2 bool),
      shape1 targets' = shape1 targets ->
      shape1 target_mask' = shape1 target_mask ->
      map (@tl Z) (rows2 targets') = map (@tl Z) (rows2 targets) ->
      map (@tl bool) (rows2 target_mask') = map (@tl bool) (rows2 target_mask) ->
      _get_loss logits targets' target_mask' = _get_loss logits targets target_mask).
Proof.
  split; [reflexivity |].
  split; [intros b t; split; apply entry_slice_from_1 |].
  split; [intros steps H1 H2; unfold slice_from_1; simpl; lia |].
  split; [apply wf_slice_from_1 |]. split; [apply wf_slice_from_1 |].
  intros targets' mask' S1 S2 R1 R2. unfold _get_loss, slice_from_1.
  change (@skipn Z 1) with (@tl Z). change (@skipn bool 1) with (@tl bool).
  rewrite S1, S2, R1, R2. reflexivity.
Qed.

(** ** The training loop *)

Lemma extends_refl (w : World) : extends w w 0 [].
Proof.
  unfold extends. rewrite Nat.add_0_r, app_nil_r. repeat split; reflexivity.
Qed.

Lemma extends_trans (w1 w2 w3 : World) (d1 d2 : nat) (i1 i2 : list (list Z)) :
  extends w1 w2 d1 i1 -> extends w2 w3 d2 i2 -> extends w1 w3 (d1 + d2) (i1 ++ i2).
Proof.
  unfold extends. intros (R1 & D1 & F1 & B1) (R2 & D2 & F2 & B2).
  rewrite R2, D2, F2, B2, R1, D1, F1, B1, app_assoc. repeat split; lia.
Qed.

Lemma draw_inv (self : MachampSeq2SeqDecoder) (w w1 : World) (draw : option Q) :
  (if training self then r <- torch_rand ;; ret (Some r) else ret None) w
  = Ok (draw, w1) ->
  draw = draw_at self w 0 /\ extends w w1 (draws_of self 1) [].
Proof.
  unfold draw_at, draws_of, extends. destruct (training self).
  - unfold bind, torch_rand, ret. intros H. inversion H; subst; simpl.
    rewrite Nat.add_0_r, app_nil_r. repeat split; lia.
  - unfold ret. intros H. inversion H; subst.
    rewrite Nat.add_0_r, app_nil_r. repeat split; reflexivity.
Qed.

Lemma prepare_inv (self : MachampSeq2SeqDecoder) (ids : list Z) (state : State)
    (w w' : World) (out : list (list Q)) (state' : State) :
  _prepare_output_projections self ids state w = Ok (out, state', w') ->
  length ids = length state /\
  extends w w' 0 [ids] /\
  exists rows,
    rmapM (fun ps : Z * RowState =>
             _prepare_output_projections_row self (fst ps) (snd ps))
          (combine ids state) = Ok rows /\
    out = map fst rows /\ state' = map snd rows.
Proof.
  unfold _prepare_output_projections. intros H.
  apply bind_Ok_inv in H as ([] & w1 & H1 & H).
  unfold enter_step in H1. inversion H1; subst; clear H1.
  destruct (Nat.eqb_spec (length ids) (length state)) as [E | E];
    [| discriminate].
  apply bind_Ok_inv in H as (rows & w2 & H2 & H).
  apply lift_Ok_inv in H2 as (H2 & ->).
  apply ret_Ok_inv in H as (H & ->). inversion H; subst.
  split; [assumption |]. split; [| eauto].
  unfold extends; simpl. rewrite Nat.add_0_r. repeat split; reflexivity.
Qed.

Lemma forward_loop_for_inv (self : MachampSeq2SeqDecoder)
    (target_tokens : option TextFieldTensors) :
  forall (k t0 : nat) (last_predictions : list Z) (state : State)
         (sl : list (list (list Q))) (sp : list (list Z)) (w : World)
         (state' : State) (sl' : list (list (list Q))) (sp' : list (list Z))
         (w' : World),
    _forward_loop_for self target_tokens (seq t0 k) last_predictions state sl sp w
    = Ok (state', sl', sp', w') ->
    exists (inputs : list (list Z)) (newl : list (list (list Q)))
           (newp : list (list Z)),
      sl' = sl ++ newl /\ sp' = sp ++ newp /\
      length inputs = k /\ length newl = k /\ length newp = k /\
      extends w w' (draws_of self k) inputs /\
      forall i, i < k ->
        input_choices self target_tokens (t0 + i) (draw_at self w i)
          (nth i (last_predictions :: newp) []) = Ok (nth i inputs []).
Proof.
  induction k as [| k IH]; intros t0 lp state sl sp w state' sl' sp' w' H.
  - simpl in H. apply ret_Ok_inv in H as (H & ->). inversion H; subst.
    exists [], [], []. rewrite !app_nil_r.
    do 5 (split; [reflexivity |]). split.
    + unfold draws_of. destruct (training self); apply extends_refl.
    + intros i Hi; lia.
  - cbn [seq _forward_loop_for] in H.
    apply bind_Ok_inv in H as (draw & w1 & Hd & H).
    apply draw_inv in Hd as (-> & E1).
    apply bind_Ok_inv in H as (inp & w2 & Hi & H).
    apply lift_Ok_inv in Hi as (Hi & ->).
    apply bind_Ok_inv in H as ([op st1] & w3 & Hp & H).
    apply prepare_inv in Hp as (_ & E2 & _).
    apply bind_Ok_inv in H as (pc & w4 & Hm & H).
    apply lift_Ok_inv in Hm as (_ & ->).
    apply IH in H as (inputs & newl & newp & -> & -> & L1 & L2 & L3 & E3 & Hstep).
    exists (inp :: inputs), (op :: newl), (pc :: newp).
    rewrite <- !app_assoc. simpl.
    do 2 (split; [reflexivity |]). do 3 (split; [lia |]). split.
    + pose proof (extends_trans _ _ _ _ _ _ _ (extends_trans _ _ _ _ _ _ _ E1 E2) E3)
        as E.
      replace (draws_of self (S k)) with (draws_of self 1 + 0 + draws_of self k)
        by (unfold draws_of; destruct (training self); lia).
      exact E.
    + intros [| i] Hlt.
      * rewrite Nat.add_0_r. exact Hi.
      * specialize (Hstep i ltac:(lia)).
        replace (t0 + S i) with (S t0 + i) by lia.
        replace (draw_at self w (S i)) with (draw_at self w3 i); [exact Hstep |].
        destruct (extends_trans _ _ _ _ _ _ _ E1 E2) as (R & D & _).
        unfold draw_at, draws_of in *. destruct (training self); [| reflexivity].
        rewrite R, D. f_equal. f_equal. lia.
Qed.

Lemma forward_loop_inv (self : MachampSeq2SeqDecoder) (state : State)
    (target_tokens : option TextFieldTensors) (w w' : World)
    (out : OutputDict) (state' : State) :
  _forward_loop self state target_tokens w = Ok (out, state', w') ->
  exists step_logits step_predictions preds,
    _forward_loop_for self target_tokens
      (seq 0 (num_decoding_steps self target_tokens))
      (new_full (length state) (_start_index self)) state [] [] w
    = Ok (state', step_logits, step_predictions, w') /\
    cat_dim1 0%Z step_predictions = Ok preds /\
    predictions out = Some (Dim2 preds) /\
    class_probabilities out = Some (Dim2 preds) /\
    class_log_probabilities out = None /\
    match target_tokens with
    | None => loss out = None
    | Some targets =>
        exists logits l,
          cat_dim1 [] step_logits = Ok logits /\
          _get_loss logits targets (get_text_field_mask targets) = Ok l /\
          loss out =
          Some ((l * loss_weight self)
                / torch_log (out_features (_output_projection_layer self)))%Q
    end.
Proof.
  unfold _forward_loop. intros H.
  apply bind_Ok_inv in H as ([[st1 sl] sp] & w1 & Hloop & H).
  apply bind_Ok_inv in H as (preds & w2 & Hc & H).
  apply lift_Ok_inv in Hc as (Hc & ->).
  destruct target_tokens as [targets |].
  - apply bind_Ok_inv in H as (logits & w3 & Hl & H).
    apply lift_Ok_inv in Hl as (Hl & ->).
    apply bind_Ok_inv in H as (l & w4 & Hg & H).
    apply lift_Ok_inv in Hg as (Hg & ->).
    apply ret_Ok_inv in H as (H & ->). inversion H; subst.
    exists sl, sp, preds. simpl. repeat split; try assumption; eauto.
  - apply ret_Ok_inv in H as (H & ->). inversion H; subst.
    exists sl, sp, preds. simpl. repeat split; assumption.
Qed.

(** C4, as the code has it. When the loop is given gold targets and returns,
    the loss of the result is the loss of section 4.6 on the logits of the
    loop, multiplied by the decoder's loss weight and then divided by the
    logarithm of the number of classes; with loss weight 1 it is that loss
    divided by the logarithm. *)
Theorem forward_loop_loss (self : MachampSeq2SeqDecoder) (state : State)
    (targets : TextFieldTensors) (w w' : World) (out : OutputDict)
    (state' : State) :
  _forward_loop self state (Some targets) w = Ok (out, state', w') ->
  exists step_logits step_predictions logits l,
    _forward_loop_for self (Some targets) (seq 0 (shape1 targets - 1))
      (new_full (length state) (_start_index self)) state [] [] w
    = Ok (state', step_logits, step_predictions, w') /\
    cat_dim1 [] step_logits = Ok logits /\
    _get_loss logits targets (get_text_field_mask targets) = Ok l /\
    loss out =
    Some ((l * loss_weight self)
          / torch_log (out_features (_output_projection_layer self)))%Q /\
    ((loss_weight self == 1)%Q ->
     exists v, loss out = Some v /\
               (v == l / torch_log (out_features (_output_projection_layer self)))%Q).
Proof.
  intros H. apply forward_loop_inv in H
    as (sl & sp & preds & Hloop & _ & _ & _ & _ & logits & l & Hc & Hg & Hl).
  exists sl, sp, logits, l. repeat split; try assumption.
  intros W. eexists; split; [exact Hl |].
  rewrite W, Qmult_1_r. reflexivity.
Qed.

Lemma Qltb_lt (x y : Q) : Qltb x y = true <-> (x < y)%Q.
Proof.
  unfold Qltb. rewrite negb_true_iff. split.
  - intros H. apply Qnot_le_lt. intros L.
    apply Qle_bool_iff in L. congruence.
  - intros H. destruct (Qle_bool y x) eqn:E; [| reflexivity].
    apply Qle_bool_iff in E. exfalso. exact (Qlt_not_le _ _ H E).
Qed.

Lemma Qltb_ge (x y : Q) : Qltb x y = false <-> (y <= x)%Q.
Proof.
  unfold Qltb. rewrite negb_false_iff. apply Qle_bool_iff.
Qed.

Lemma input_choices_sampled (self : MachampSeq2SeqDecoder)
    (target_tokens : option TextFieldTensors) (t : nat) (r : Q)
    (last_predictions : list Z) :
  (r < _scheduled_sampling_ratio self)%Q ->
  input_choices self target_tokens t (Some r) last_predictions = Ok last_predictions.
Proof.
  intros H. unfold input_choices.
  rewrite (proj2 (Qltb_lt _ _) H). reflexivity.
Qed.

Lemma input_choices_gold (self : MachampSeq2SeqDecoder)
    (targets : TextFieldTensors) (t : nat) (draw : option Q)
    (last_predictions : list Z) :
  match draw with
  | Some r => (_scheduled_sampling_ratio self <= r)%Q
  | None => True
  end ->
  input_choices self (Some targets) t draw last_predictions = column 0%Z targets t.
Proof.
  intros H. unfold input_choices. destruct draw as [r |]; [| reflexivity].
  rewrite (proj2 (Qltb_ge _ _) H). reflexivity.
Qed.

Lemma input_choices_no_targets (self : MachampSeq2SeqDecoder) (t : nat)
    (draw : option Q) (last_predictions : list Z) :
  input_choices self None t draw last_predictions = Ok last_predictions.
Proof.
  unfold input_choices. destruct draw as [r |]; [| reflexivity].
  destruct (Qltb r (_scheduled_sampling_ratio self)); reflexivity.
Qed.

(** A loop that returns has run at least one step: [torch.cat] refuses the
    empty list of step predictions. *)
Lemma cat_dim1_nonempty {A : Type} (d : A) (steps : list (list A))
    (r : list (list A)) :
  cat_dim1 d steps = Ok r -> steps <> [].
Proof. destruct steps; [discriminate | discriminate]. Qed.

(** C8, as the code has it. When the loop returns, the first token ids given
    to the step function are the start marker for every batch element if
    there are no gold targets, or if the decoder is in training mode and the
    first draw is below the scheduled-sampling ratio; otherwise they are the
    gold tokens at position 0 of the targets, hence the start marker when the
    targets begin with it. *)
Theorem first_input_of_the_loop (self : MachampSeq2SeqDecoder) (state : State)
    (target_tokens : option TextFieldTensors) (w w' : World) (out : OutputDict)
    (state' : State) :
  _forward_loop self state target_tokens w = Ok (out, state', w') ->
  exists (first : list Z) (rest : list (list Z)),
    fed w' = fed w ++ first :: rest /\
    (target_tokens = None ->
     first = new_full (length state) (_start_index self)) /\
    (training self = true ->
     (rng w (drawn w) < _scheduled_sampling_ratio self)%Q ->
     first = new_full (length state) (_start_index self)) /\
    (forall targets : TextFieldTensors,
        target_tokens = Some targets ->
        training self = false \/
        (_scheduled_sampling_ratio self <= rng w (drawn w))%Q ->
        column 0%Z targets 0 = Ok first) /\
    (forall targets : TextFieldTensors,
        target_tokens = Some targets ->
        column 0%Z targets 0 = Ok (new_full (length state) (_start_index self)) ->
        first = new_full (length state) (_start_index self)).
Proof.
  intros H. apply forward_loop_inv in H
    as (sl & sp & preds & Hloop & Hcat & _).
  apply forward_loop_for_inv in Hloop
    as (inputs & newl & newp & _ & Hsp & L1 & _ & L3 & (_ & _ & F & _) & Hstep).
  simpl in Hsp. subst sp.
  assert (Hn : 0 < num_decoding_steps self target_tokens).
  { apply cat_dim1_nonempty in Hcat. destruct newp; [congruence | simpl in L3; lia]. }
  specialize (Hstep 0 Hn). simpl in Hstep.
  destruct inputs as [| first rest]; [simpl in L1; lia |]. simpl in Hstep.
  exists first, rest. split; [exact F |].
  unfold draw_at in Hstep. rewrite Nat.add_0_r in Hstep.
  split; [| split; [| split]].
  - intros ->. rewrite input_choices_no_targets in Hstep. congruence.
  - intros Htr Hlt. rewrite Htr in Hstep.
    rewrite input_choices_sampled in Hstep by assumption. congruence.
  - intros targets -> Hmode. rewrite input_choices_gold in Hstep; [assumption |].
    destruct (training self); [| exact I].
    destruct Hmode as [Hf | Hle]; [discriminate | exact Hle].
  - intros targets -> Hcol.
    unfold input_choices in Hstep.
    destruct (match (if training self then Some (rng w (drawn w)) else None) with
              | Some r => Qltb r (_scheduled_sampling_ratio self)
              | None => false
              end); congruence.
Qed.

(** C1. In training mode a run of the loop takes one number from the
    generator per step, whatever the batch size.  At step [t] the whole batch
    is given the predictions of the step before (the start marker at step 0)
    when that number is below the scheduled-sampling ratio, and the gold
    tokens at position [t] otherwise, if there are gold targets; without gold
    targets it is always given the predictions of the step before.  So with
    numbers in [0, 1) a ratio of 0 gives the gold tokens at every step and a
    ratio of 1 the decoder's own predictions at every step. *)
Theorem scheduled_sampling_per_step (self : MachampSeq2SeqDecoder)
    (state : State) (target_tokens : option TextFieldTensors) (w w' : World)
    (out : OutputDict) (state' : State) :
  training self = true ->
  _forward_loop self state target_tokens w = Ok (out, state', w') ->
  exists (inputs step_predictions : list (list Z))
         (step_logits : list (list (list Q))) (preds : list (list Z)),
    let n := num_decoding_steps self target_tokens in
    let previous := fun t =>
      nth t (new_full (length state) (_start_index self) :: step_predictions) [] in
    _forward_loop_for self target_tokens (seq 0 n)
      (new_full (length state) (_start_index self)) state [] [] w
    = Ok (state', step_logits, step_predictions, w') /\
    cat_dim1 0%Z step_predictions = Ok preds /\
    predictions out = Some (Dim2 preds) /\
    length inputs = n /\ length step_predictions = n /\
    fed w' = fed w ++ inputs /\
    drawn w' = drawn w + n /\
    (forall t, t < n ->
       ((rng w (drawn w + t) < _scheduled_sampling_ratio self)%Q ->
        nth t inputs [] = previous t) /\
       ((_scheduled_sampling_ratio self <= rng w (drawn w + t))%Q ->
        forall targets, target_tokens = Some targets ->
                        column 0%Z targets t = Ok (nth t inputs [])) /\
       (target_tokens = None -> nth t inputs [] = previous t)) /\
    ((_scheduled_sampling_ratio self == 0)%Q ->
     (forall i, (0 <= rng w i)%Q) ->
     forall targets, target_tokens = Some targets ->
     forall t, t < n -> column 0%Z targets t = Ok (nth t inputs [])) /\
    ((_scheduled_sampling_ratio self == 1)%Q ->
     (forall i, (rng w i < 1)%Q) ->
     forall t, t < n -> nth t inputs [] = previous t).
Proof.
  intros Htr H. apply forward_loop_inv in H
    as (sl & sp & preds & Hloop & Hcat & Hp & _).
  pose proof Hloop as Hinv. apply forward_loop_for_inv in Hinv
    as (inputs & newl & newp & _ & Hsp & L1 & _ & L3 & (_ & D & F & _) & Hstep).
  simpl in Hsp. subst sp.
  exists inputs, newp, sl, preds. cbv zeta.
  unfold draws_of in D. rewrite Htr in D.
  assert (Hstep' : forall t, t < num_decoding_steps self target_tokens ->
            input_choices self target_tokens t (Some (rng w (drawn w + t)))
              (nth t (new_full (length state) (_start_index self) :: newp) [])
            = Ok (nth t inputs [])).
  { intros t Ht. specialize (Hstep t Ht). unfold draw_at in Hstep.
    rewrite Htr in Hstep. exact Hstep. }
  do 7 (split; [assumption |]).
  split; [| split].
  - intros t Ht. specialize (Hstep' t Ht). split; [| split].
    + intros Hlt. rewrite input_choices_sampled in Hstep' by assumption.
      congruence.
    + intros Hle targets ->.
      rewrite input_choices_gold in Hstep' by assumption. assumption.
    + intros ->. rewrite input_choices_no_targets in Hstep'. congruence.
  - intros R0 Hpos targets -> t Ht. specialize (Hstep' t Ht).
    rewrite input_choices_gold in Hstep'; [assumption |].
    rewrite R0. apply Hpos.
  - intros R1 Hlt t Ht. specialize (Hstep' t Ht).
    rewrite input_choices_sampled in Hstep'; [congruence |].
    rewrite R1. apply Hlt.
Qed.

(** ** The step function *)

Lemma decoder_input_stacked (self : MachampSeq2SeqDecoder) (last_prediction : Z)
    (state : RowState) (embedded_input : vec) (attention : Attention)
    (h0 : vec) (hs : list vec) :
  _target_embedder self last_prediction = Ok embedded_input ->
  _attention self = Some attention ->
  (1 < _target_decoder_layers self)%Z ->
  decoder_hidden state = Stacked (h0 :: hs) ->
  decoder_input self last_prediction state =
  Ok (torch_cat
        (weighted_sum (encoder_outputs state)
           (attention h0 (encoder_outputs state) (source_mask state)))
        embedded_input).
Proof.
  intros He Ha Hl Hh. unfold decoder_input, attention_query.
  rewrite He, Ha, Hh. simpl.
  rewrite (proj2 (Z.ltb_lt _ _) Hl). reflexivity.
Qed.

(** C2, as the code has it. With attention and a stacked decoder the query
    of the attention is layer 0 of the current hidden state, the layer whose
    cell reads the decoder input (not the last layer, which the output
    projection reads); the attended context is the weighted sum of the encoder
    outputs under the weights the attention gives for that query, the encoder
    outputs and the source mask, and it is concatenated with the embedding of
    the fed token to form the input of the recurrent cell.  With a single
    layer the query is the hidden state; without attention the embedding alone
    is the input of the cell. *)
Theorem decoder_input_attends_with_layer_0 (self : MachampSeq2SeqDecoder)
    (last_prediction : Z) (state : RowState) (embedded_input : vec) :
  _target_embedder self last_prediction = Ok embedded_input ->
  (forall (attention : Attention) (h0 : vec) (hs : list vec),
      _attention self = Some attention ->
      (1 < _target_decoder_layers self)%Z ->
      decoder_hidden state = Stacked (h0 :: hs) ->
      attention_query self (decoder_hidden state) = Ok h0 /\
      index_last (decoder_hidden state) = Ok (last hs h0) /\
      decoder_input self last_prediction state =
      Ok (torch_cat
            (weighted_sum (encoder_outputs state)
               (attention h0 (encoder_outputs state) (source_mask state)))
            embedded_input)) /\
  (forall (attention : Attention) (h : vec),
      _attention self = Some attention ->
      (_target_decoder_layers self <= 1)%Z ->
      decoder_hidden state = Flat h ->
      decoder_input self last_prediction state =
      Ok (torch_cat
            (weighted_sum (encoder_outputs state)
               (attention h (encoder_outputs state) (source_mask state)))
            embedded_input)) /\
  (_attention self = None ->
   decoder_input self last_prediction state = Ok embedded_input) /\
  (forall (x : vec) (out : list Q) (state' : RowState),
      decoder_input self last_prediction state = Ok x ->
      _prepare_output_projections_row self last_prediction state = Ok (out, state') ->
      (if (1 <? _target_decoder_layers self)%Z
       then call_LSTM (_decoder_cell self) x
              (decoder_hidden state) (decoder_context state)
       else call_LSTMCell (_decoder_cell self) x
              (decoder_hidden state) (decoder_context state))
      = Ok (decoder_hidden state', decoder_context state')).
Proof.
  intros He. split; [| split; [| split]].
  - intros attention h0 hs Ha Hl Hh. split; [| split].
    + unfold attention_query. rewrite (proj2 (Z.ltb_lt _ _) Hl), Hh. reflexivity.
    + rewrite Hh. reflexivity.
    + eapply decoder_input_stacked; eassumption.
  - intros attention h Ha Hl Hh. unfold decoder_input, attention_query.
    rewrite He, Ha, Hh. simpl.
    rewrite (proj2 (Z.ltb_ge _ _) Hl). reflexivity.
  - intros Ha. unfold decoder_input. rewrite He, Ha. reflexivity.
  - intros x out state' Hx Hrow. unfold _prepare_output_projections_row in Hrow.
    rewrite Hx in Hrow. simpl in Hrow.
    apply rbind_Ok_inv in Hrow as ([h c] & Hcall & Hrow).
    apply rbind_Ok_inv in Hrow as (o & _ & Hrow).
    inversion Hrow; subst. simpl. exact Hcall.
Qed.

(** ** Beam search of width one *)

Lemma rmapM_nth_error {A B : Type} (f : A -> result B) (l : list A)
    (l' : list B) (i : nat) (x : A) :
  rmapM f l = Ok l' -> nth_error l i = Some x ->
  exists y, nth_error l' i = Some y /\ f x = Ok y.
Proof.
  revert l' i. induction l as [| a l IH]; simpl; intros l' i H Hi.
  - destruct i; discriminate.
  - apply rbind_Ok_inv in H as (y & Hy & H).
    apply rbind_Ok_inv in H as (ys & Hys & H).
    inversion H; subst. destruct i as [| i]; simpl in *.
    + inversion Hi; subst. eauto.
    + eapply IH; eassumption.
Qed.

Lemma nth_error_combine {A B : Type} (l : list A) (l' : list B) (i : nat)
    (x : A) (y : B) :
  nth_error l i = Some x -> nth_error l' i = Some y ->
  nth_error (combine l l') i = Some (x, y).
Proof.
  revert l' i. induction l as [| a l IH]; intros [| b l'] [| i]; simpl;
    intros H1 H2; try discriminate.
  - inversion H1; inversion H2; reflexivity.
  - auto.
Qed.

Lemma forward_loop_for_rows (self : MachampSeq2SeqDecoder) :
  forall (k t0 : nat) (lp : list Z) (state : State)
         (sl : list (list (list Q))) (sp : list (list Z)) (w : World)
         (state' : State) (sl' : list (list (list Q))) (sp' : list (list Z))
         (w' : World),
    _forward_loop_for self None (seq t0 k) lp state sl sp w
    = Ok (state', sl', sp', w') ->
    exists newp : list (list Z),
      sp' = sp ++ newp /\ length newp = k /\
      Forall (fun col => length col = length state) newp /\
      forall (b : nat) (p : Z) (s : RowState),
        nth_error lp b = Some p -> nth_error state b = Some s ->
        greedy_row self k p s = Ok (map (fun col => nth b col 0%Z) newp).
Proof.
  induction k as [| k IH]; intros t0 lp state sl sp w state' sl' sp' w' H.
  - simpl in H. apply ret_Ok_inv in H as (H & ->). inversion H; subst.
    exists []. rewrite app_nil_r. repeat split; auto.
  - cbn [seq _forward_loop_for] in H.
    apply bind_Ok_inv in H as (draw & w1 & _ & H).
    apply bind_Ok_inv in H as (inp & w2 & Hi & H).
    apply lift_Ok_inv in Hi as (Hi & ->).
    rewrite input_choices_no_targets in Hi. inversion Hi; subst inp; clear Hi.
    apply bind_Ok_inv in H as ([op st1] & w3 & Hp & H).
    apply prepare_inv in Hp as (Hlen & _ & rows & Hrows & -> & ->).
    apply bind_Ok_inv in H as (pc & w4 & Hm & H).
    apply lift_Ok_inv in Hm as (Hm & ->). unfold torch_max_dim1 in Hm.
    apply IH in H as (newp & -> & L & Hall & Hrow).
    assert (Lrows : length rows = length state).
    { rewrite (rmapM_length _ _ _ Hrows), length_combine. lia. }
    assert (Lpc : length pc = length state).
    { rewrite (rmapM_length _ _ _ Hm), !length_map. exact Lrows. }
    rewrite length_map, Lrows in Hall.
    exists (pc :: newp). rewrite <- app_assoc. simpl.
    split; [reflexivity |]. split; [lia |]. split; [constructor; assumption |].
    intros b p s Hb Hs.
    destruct (rmapM_nth_error _ _ _ b (p, s) Hrows (nth_error_combine _ _ _ _ _ Hb Hs))
      as ([o s'] & Hy & Hstep). simpl in Hstep.
    assert (Ho : nth_error (map softmax (map fst rows)) b = Some (softmax o)).
    { rewrite !nth_error_map, Hy. reflexivity. }
    destruct (rmapM_nth_error _ _ _ b _ Hm Ho) as (c & Hc & Harg).
    assert (Hs' : nth_error (map snd rows) b = Some s').
    { rewrite nth_error_map, Hy. reflexivity. }
    rewrite Hstep. simpl. rewrite Harg. simpl.
    rewrite (Hrow b c s' Hc Hs'). simpl.
    rewrite (nth_error_nth _ _ 0%Z Hc). reflexivity.
Qed.









Section BeamOne.

Variable self : MachampSeq2SeqDecoder.

(** Softmax and log-softmax rank the classes alike (the logarithm is
    increasing), so both have their first largest entry at the same class. *)
Hypothesis same_argmax : forall row, argmax (log_softmax row) = argmax (softmax row).


End BeamOne.




Lemma through_end_split (e : Z) (ids : list Z) :
  (exists pre post, ~ In e pre /\ ids = pre ++ e :: post /\
                    through_end e ids = pre ++ [e]) \/
  (~ In e ids /\ through_end e ids = ids).
Proof.
  induction ids as [| x l IH]; simpl.
  - right. split; [tauto | reflexivity].
  - destruct (Z.eqb_spec x e) as [-> | Hne].
    + left. exists [], l. repeat split; auto.
    + destruct IH as [(pre & post & Hpre & -> & Ht) | (Hn & Ht)].
      * left. exists (x :: pre), post. rewrite Ht. simpl.
        repeat split; [intuition congruence].
      * right. rewrite Ht. split; [intuition congruence | reflexivity].
Qed.




(** * Further properties of the code *)

(** ** The constructor *)

(** X1. With the padding token found in the vocabulary, the constructor
    raises [AttributeError] when [target_embedding_dim] is [None] (its
    default) or 0: the fallback [self._encoder_output_dim] is read before it
    is assigned. *)
Theorem init_without_target_embedding_dim (a : InitArgs) (pad : Z) :
  get_token_index (arg_vocab a) (_padding_token (arg_vocab a))
    "target_words"%string = Ok pad ->
  arg_target_embedding_dim a = None \/ arg_target_embedding_dim a = Some 0%Z ->
  __init__ a = Raise AttributeError.
Proof.
  intros Hpad Hdim. unfold __init__. rewrite Hpad. simpl.
  destruct Hdim as [-> | ->]; reflexivity.
Qed.

(** X2. The constructor reads the vocabulary for the padding id and the
    number of classes only: a vocabulary that agrees on these two gives a
    decoder with the same attributes, the vocabulary apart (and the same
    exception when it raises). *)
Theorem init_reads_padding_id_and_size_only (a : InitArgs) (v : Vocabulary) :
  get_token_index v (_padding_token v) "target_words"%string =
  get_token_index (arg_vocab a) (_padding_token (arg_vocab a))
    "target_words"%string ->
  get_vocab_size v "target_words"%string =
  get_vocab_size (arg_vocab a) "target_words"%string ->
  __init__ (with_vocab v a) =
  match __init__ a with
  | Ok m => Ok (set_vocab v m)
  | Raise e => Raise e
  end.
Proof.
  intros Hpad Hsize. unfold __init__. simpl. rewrite Hpad, Hsize.
  destruct (get_token_index (arg_vocab a) (_padding_token (arg_vocab a))
              "target_words"%string) as [pad | e]; simpl; [| reflexivity].
  destruct (truthy (arg_target_embedding_dim a)) as [d |]; reflexivity.
Qed.

(** X3. A constructed decoder has the cell its layer count selects, given
    that torch's [LSTM] has as many layers as it was asked for; the beam
    width is the given one, 1 when it is [None] or 0; with BLEU the metric
    excludes the padding id and both markers. *)
Theorem init_wires_cell_beam_and_metric (a : InitArgs) (m : MachampSeq2SeqDecoder) :
  (forall i o : Z,
      length (LSTM i o (arg_target_decoder_layers a))
      = Z.to_nat (arg_target_decoder_layers a)) ->
  __init__ a = Ok m ->
  cell_fits m /\
  (match _decoder_cell m with
   | IsLSTM cells => length cells = Z.to_nat (_target_decoder_layers m)
   | IsLSTMCell _ => (_target_decoder_layers m <= 1)%Z
   end) /\
  bs_beam_size (_beam_search m) =
  match arg_beam_size a with
  | Some b => if (b =? 0)%Z then 1%Z else b
  | None => 1%Z
  end /\
  (arg_use_bleu a = true ->
   exists b pad, _bleu m = Some b /\
     get_token_index (arg_vocab a) (_padding_token (arg_vocab a))
       "target_words"%string = Ok pad /\
     exclude_indices b = [pad; 3; 2]%Z) /\
  (arg_use_bleu a = false -> _bleu m = None).
Proof.
  intros HL H. unfold __init__ in H.
  destruct (get_token_index (arg_vocab a) (_padding_token (arg_vocab a))
              "target_words"%string) as [pad | e] eqn:Epad; [| discriminate].
  simpl in H.
  destruct (truthy (arg_target_embedding_dim a)) as [d |]; [| discriminate].
  simpl in H. inversion H; subst m; clear H. unfold cell_fits. simpl.
  split; [| split; [| split; [| split]]].
  - destruct (1 <? arg_target_decoder_layers a)%Z eqn:E; [| reflexivity].
    split; [reflexivity |]. intros Hnil.
    apply (f_equal (@length _)) in Hnil. rewrite HL in Hnil. simpl in Hnil.
    apply Z.ltb_lt in E. lia.
  - destruct (1 <? arg_target_decoder_layers a)%Z eqn:E.
    + apply HL.
    + apply Z.ltb_ge. exact E.
  - destruct (arg_beam_size a) as [b |]; simpl; [| reflexivity].
    destruct (b =? 0)%Z; reflexivity.
  - intros ->. eauto.
  - intros ->. reflexivity.
Qed.

(** ** The decoder state *)

Lemma map_fst_combine_eq {A B : Type} (l : list A) (l' : list B) :
  length l = length l' -> map fst (combine l l') = l.
Proof.
  revert l'. induction l as [| a l IH]; intros [| b l'] H; simpl in *;
    try discriminate; [reflexivity |].
  f_equal. apply IH. lia.
Qed.

Lemma map_snd_combine_eq {A B : Type} (l : list A) (l' : list B) :
  length l = length l' -> map snd (combine l l') = l'.
Proof.
  revert l'. induction l as [| a l IH]; intros [| b l'] H; simpl in *;
    try discriminate; [reflexivity |].
  f_equal. apply IH. lia.
Qed.

Lemma init_decoder_state_inv (self : MachampSeq2SeqDecoder) (src : Source)
    (st : State) :
  _init_decoder_state self src = Ok st ->
  length (src_encoder_outputs src) = length (src_source_mask src) /\
  length st = length (src_source_mask src) /\
  source_of st = src /\
  Forall (fun row =>
            let h := get_final_encoder_states (encoder_outputs row)
                       (source_mask row) in
            let c := new_zeros (_decoder_output_dim self) in
            if (1 <? _target_decoder_layers self)%Z then
              decoder_hidden row
              = Stacked (repeat h (Z.to_nat (_target_decoder_layers self))) /\
              decoder_context row
              = Stacked (repeat c (Z.to_nat (_target_decoder_layers self)))
            else decoder_hidden row = Flat h /\ decoder_context row = Flat c) st.
Proof.
  unfold _init_decoder_state. destruct src as [encs masks]. simpl.
  destruct (Nat.eqb_spec (length encs) (length masks)) as [E | E];
    [| discriminate].
  intros H. inversion H; subst st; clear H.
  split; [exact E |].
  split; [rewrite length_map, length_combine; lia |].
  split.
  - unfold source_of. rewrite !map_map.
    replace (map (fun x : enc * list bool => encoder_outputs _) (combine encs masks))
      with (map fst (combine encs masks)).
    2:{ apply map_ext. intros [e m]. simpl.
        destruct (1 <? _target_decoder_layers self)%Z; reflexivity. }
    replace (map (fun x : enc * list bool => source_mask _) (combine encs masks))
      with (map snd (combine encs masks)).
    2:{ apply map_ext. intros [e m]. simpl.
        destruct (1 <? _target_decoder_layers self)%Z; reflexivity. }
    rewrite map_fst_combine_eq, map_snd_combine_eq by assumption. reflexivity.
  - apply Forall_map. apply Forall_forall. intros [e m] _. simpl.
    destruct (1 <? _target_decoder_layers self)%Z; simpl; split; reflexivity.
Qed.


Lemma init_rows_shaped (self : MachampSeq2SeqDecoder) (src : Source) (st : State) :
  cell_fits self ->
  (forall cells, _decoder_cell self = IsLSTM cells ->
                 length cells = Z.to_nat (_target_decoder_layers self)) ->
  _init_decoder_state self src = Ok st ->
  Forall (shaped self) st.
Proof.
  intros Hfit Hlen H.
  destruct (init_decoder_state_inv self src st H) as (_ & _ & _ & F).
  eapply Forall_impl; [| exact F]. intros row Hrow. cbv zeta in Hrow.
  unfold shaped, cell_fits in *.
  destruct (_decoder_cell self) as [f | cells] eqn:Ecell.
  - rewrite Hfit in Hrow. destruct Hrow as (-> & ->). exact I.
  - destruct Hfit as (Hl & _). rewrite Hl in Hrow. destruct Hrow as (-> & ->).
    rewrite !repeat_length. rewrite (Hlen cells eq_refl). split; reflexivity.
Qed.

(** ** The step function *)



Lemma step_row_source (self : MachampSeq2SeqDecoder) (p : Z) (s s' : RowState)
    (o : list Q) :
  _prepare_output_projections_row self p s = Ok (o, s') ->
  encoder_outputs s' = encoder_outputs s /\ source_mask s' = source_mask s.
Proof.
  unfold _prepare_output_projections_row. intros H.
  apply rbind_Ok_inv in H as (x & _ & H).
  apply rbind_Ok_inv in H as ([h c] & _ & H).
  apply rbind_Ok_inv in H as (out & _ & H).
  inversion H; subst. split; reflexivity.
Qed.


Lemma rows_source (self : MachampSeq2SeqDecoder) :
  forall (ids : list Z) (state : State) (rows : list (list Q * RowState)),
    length ids = length state ->
    rmapM (fun ps : Z * RowState =>
             _prepare_output_projections_row self (fst ps) (snd ps))
          (combine ids state) = Ok rows ->
    length rows = length state /\ source_of (map snd rows) = source_of state.
Proof.
  induction ids as [| p ids IH]; intros [| s state] rows L H; simpl in *;
    try discriminate.
  - inversion H; subst. split; reflexivity.
  - apply rbind_Ok_inv in H as ([o s'] & Hrow & H).
    apply rbind_Ok_inv in H as (rest & Hrest & H). inversion H; subst rows.
    destruct (IH state rest ltac:(lia) Hrest) as (L' & S').
    destruct (step_row_source self p s s' o Hrow) as (E1 & E2).
    unfold source_of in *. simpl. inversion S' as [[S1 S2]].
    rewrite E1, E2. split; [lia | reflexivity].
Qed.

Lemma prepare_shape (self : MachampSeq2SeqDecoder) (ids : list Z) (state : State)
    (w w' : World) (out : list (list Q)) (state' : State) :
  _prepare_output_projections self ids state w = Ok (out, state', w') ->
  length ids = length state /\ length out = length state /\
  length state' = length state /\ source_of state' = source_of state /\
  extends w w' 0 [ids].
Proof.
  intros H. apply prepare_inv in H as (L & E & rows & Hrows & -> & ->).
  destruct (rows_source self ids state rows L Hrows) as (Lr & S).
  rewrite !length_map. repeat split; try assumption; apply E.
Qed.

(** X6. When [take_step] returns, it has entered the step function once with
    the given predictions, taken no random number and left the BLEU metric
    alone; it returns one row of log-probabilities per row of the group, the
    log-softmax of the projections of [_prepare_output_projections], and a
    state with as many rows, each with its encoder outputs and source mask
    unchanged. *)
Theorem take_step_keeps_the_group (self : MachampSeq2SeqDecoder)
    (last_predictions : list Z) (state : State) (step : nat) (w w' : World)
    (class_log_probabilities : list (list Q)) (state' : State) :
  take_step self last_predictions state step w
  = Ok (class_log_probabilities, state', w') ->
  length last_predictions = length state /\
  length class_log_probabilities = length state /\
  length state' = length state /\
  source_of state' = source_of state /\
  fed w' = fed w ++ [last_predictions] /\
  drawn w' = drawn w /\ rng w' = rng w /\ bleu_updates w' = bleu_updates w /\
  exists output_projections,
    _prepare_output_projections self last_predictions state w
    = Ok (output_projections, state', w') /\
    class_log_probabilities = map log_softmax output_projections.
Proof.
  unfold take_step. intros H.
  apply bind_Ok_inv in H as ([op st1] & w1 & Hp & H).
  apply ret_Ok_inv in H as (H & ->). inversion H; subst.
  destruct (prepare_shape _ _ _ _ _ _ _ Hp) as (L1 & L2 & L3 & S & (R & D & F & B)).
  rewrite length_map, Nat.add_0_r in *. repeat split; try assumption.
  exists op. split; [assumption | reflexivity].
Qed.


(** ** The loop *)

Lemma forward_loop_for_shape (self : MachampSeq2SeqDecoder)
    (target_tokens : option TextFieldTensors) :
  forall (k t0 : nat) (lp : list Z) (state : State)
         (sl : list (list (list Q))) (sp : list (list Z)) (w : World)
         (state' : State) (sl' : list (list (list Q))) (sp' : list (list Z))
         (w' : World),
    _forward_loop_for self target_tokens (seq t0 k) lp state sl sp w
    = Ok (state', sl', sp', w') ->
    length state' = length state /\ source_of state' = source_of state /\
    exists newl newp,
      sl' = sl ++ newl /\ sp' = sp ++ newp /\
      length newl = k /\ length newp = k /\
      Forall (fun step => length step = length state) newl /\
      Forall (fun step => length step = length state) newp.
Proof.
  induction k as [| k IH]; intros t0 lp state sl sp w state' sl' sp' w' H.
  - simpl in H. apply ret_Ok_inv in H as (H & ->). inversion H; subst.
    split; [reflexivity |]. split; [reflexivity |].
    exists [], []. rewrite !app_nil_r. repeat split; constructor.
  - cbn [seq _forward_loop_for] in H.
    apply bind_Ok_inv in H as (draw & w1 & _ & H).
    apply bind_Ok_inv in H as (inp & w2 & _ & H).
    apply bind_Ok_inv in H as ([op st1] & w3 & Hp & H).
    apply prepare_shape in Hp as (_ & Lop & Lst & S & _).
    apply bind_Ok_inv in H as (pc & w4 & Hm & H).
    apply lift_Ok_inv in Hm as (Hm & ->). unfold torch_max_dim1 in Hm.
    apply rmapM_length in Hm. rewrite length_map in Hm.
    apply IH in H as (L' & S' & newl & newp & -> & -> & L1 & L2 & F1 & F2).
    rewrite Lst in *.
    split; [exact L' |]. split; [congruence |].
    exists (op :: newl), (pc :: newp). rewrite <- !app_assoc. simpl.
    repeat split; try lia; constructor; try assumption; lia.
Qed.

(** X8. A loop without decoding steps (gold targets of at most one
    position, or no targets and a step budget of 0 or less) raises
    [RuntimeError]: there are no step predictions to concatenate. *)
Theorem forward_loop_without_steps (self : MachampSeq2SeqDecoder)
    (state : State) (target_tokens : option TextFieldTensors) (w : World) :
  num_decoding_steps self target_tokens = 0 ->
  _forward_loop self state target_tokens w = Raise RuntimeError.
Proof.
  intros H. unfold _forward_loop. rewrite H. reflexivity.
Qed.

(** X9. In evaluation mode the loop takes no random number, and with gold
    targets it feeds the gold tokens of position [t] at every step [t],
    whatever the scheduled-sampling ratio: the decoder's own predictions are
    never fed. *)
Theorem forward_loop_in_evaluation_mode (self : MachampSeq2SeqDecoder)
    (state : State) (targets : TextFieldTensors) (w w' : World)
    (out : OutputDict) (state' : State) :
  training self = false ->
  _forward_loop self state (Some targets) w = Ok (out, state', w') ->
  drawn w' = drawn w /\ rng w' = rng w /\
  exists inputs : list (list Z),
    fed w' = fed w ++ inputs /\
    length inputs = shape1 targets - 1 /\
    forall t, t < shape1 targets - 1 ->
              column 0%Z targets t = Ok (nth t inputs []).
Proof.
  intros Htr H. apply forward_loop_inv in H as (sl & sp & preds & Hloop & _).
  apply forward_loop_for_inv in Hloop
    as (inputs & newl & newp & _ & _ & L1 & _ & _ & (R & D & F & _) & Hstep).
  unfold draws_of in D. rewrite Htr, Nat.add_0_r in D.
  split; [exact D |]. split; [exact R |].
  exists inputs. split; [exact F |]. split; [exact L1 |].
  intros t Ht. specialize (Hstep t Ht). unfold draw_at in Hstep.
  rewrite Htr in Hstep. rewrite input_choices_gold in Hstep by exact I.
  exact Hstep.
Qed.

(** X10. When the loop returns, it has run at least one step; its
    predictions are an array with one row per batch element and one id per
    decoding step, stored under ["predictions"] and again under
    ["class_probabilities"]; there is a loss exactly when gold targets were
    given; the state it leaves has the rows of the state it was given, each
    with its encoder outputs and source mask; and the step function was
    entered once per step. *)
Theorem forward_loop_output_shape (self : MachampSeq2SeqDecoder) (state : State)
    (target_tokens : option TextFieldTensors) (w w' : World) (out : OutputDict)
    (state' : State) :
  _forward_loop self state target_tokens w = Ok (out, state', w') ->
  0 < num_decoding_steps self target_tokens /\
  (exists preds,
      predictions out = Some (Dim2 preds) /\
      class_probabilities out = Some (Dim2 preds) /\
      length preds = length state /\
      Forall (fun row => length row = num_decoding_steps self target_tokens)
             preds) /\
  class_log_probabilities out = None /\
  (loss out = None <-> target_tokens = None) /\
  length state' = length state /\ source_of state' = source_of state /\
  length (fed w') = length (fed w) + num_decoding_steps self target_tokens /\
  bleu_updates w' = bleu_updates w.
Proof.
  intros H. apply forward_loop_inv in H
    as (sl & sp & preds & Hloop & Hcat & Hp & Hcp & Hclp & Hloss).
  pose proof Hloop as Hinv. apply forward_loop_for_inv in Hinv
    as (inputs & _ & _ & _ & _ & Li & _ & _ & (_ & _ & F & B) & _).
  apply forward_loop_for_shape in Hloop
    as (L & S & newl & newp & _ & Hsp & _ & Lp & _ & Fp).
  simpl in Hsp. subst sp.
  destruct newp as [| s0 newp]; [discriminate |].
  simpl in Hcat. inversion Hcat as [Epreds]; clear Hcat.
  split; [simpl in Lp; lia |].
  split.
  { exists preds. split; [assumption |]. split; [assumption |].
    rewrite <- Epreds. rewrite length_map, length_seq.
    split; [exact (Forall_inv Fp) |].
    apply Forall_map. apply Forall_forall. intros b _.
    simpl. rewrite length_map. simpl in Lp. exact Lp. }
  split; [assumption |]. split.
  { destruct target_tokens as [targets |].
    - destruct Hloss as (logits & l & _ & _ & Hl). rewrite Hl.
      split; discriminate.
    - split; auto. }
  split; [exact L |]. split; [exact S |].
  split; [rewrite F, length_app; lia | exact B].
Qed.

Lemma init_of_loop_state (self : MachampSeq2SeqDecoder)
    (src : Source) (state : State) (target_tokens : option TextFieldTensors)
    (w w' : World) (out : OutputDict) (state' : State) :
  _init_decoder_state self src = Ok state ->
  _forward_loop self state target_tokens w = Ok (out, state', w') ->
  _init_decoder_state self (source_of state') = Ok state.
Proof.
  intros Hinit H.
  apply forward_loop_inv in H as (sl & sp & preds & Hloop & _).
  apply forward_loop_for_shape in Hloop as (_ & S & _).
  destruct (init_decoder_state_inv self src state Hinit) as (_ & _ & Hsrc & _).
  rewrite S, Hsrc. exact Hinit.
Qed.

(** X11. Initialising the decoder state again from the state a loop has
    left gives the state the loop started from: the steps change hidden
    state and context only, which [_init_decoder_state] overwrites. *)
Theorem init_after_the_loop_restarts (self : MachampSeq2SeqDecoder)
    (src : Source) (state : State) (target_tokens : option TextFieldTensors)
    (w w' : World) (out : OutputDict) (state' : State) :
  _init_decoder_state self src = Ok state ->
  _forward_loop self state target_tokens w = Ok (out, state', w') ->
  _init_decoder_state self (source_of state') = Ok state /\
  source_of state' = src.
Proof.
  intros Hinit H. split; [eapply init_of_loop_state; eassumption |].
  apply forward_loop_inv in H as (sl & sp & preds & Hloop & _).
  apply forward_loop_for_shape in Hloop as (_ & S & _).
  destruct (init_decoder_state_inv self src state Hinit) as (_ & _ & Hsrc & _).
  congruence.
Qed.

Lemma nth_map_seq {A : Type} (g : nat -> A) (n b : nat) (d : A) :
  b < n -> nth b (map g (seq 0 n)) d = g b.
Proof.
  intros H. rewrite (nth_indep _ d (g 0)) by (rewrite length_map, length_seq; lia).
  rewrite (map_nth g (seq 0 n) 0 b). rewrite seq_nth by lia. reflexivity.
Qed.

(** X12. Without gold targets every row of the loop's predictions is the
    greedy decoding of that batch element alone: from its own row of the
    state, the start marker is fed first and then, step after step, the class
    of largest probability of the step before. *)
Theorem forward_loop_decodes_each_row_greedily (self : MachampSeq2SeqDecoder)
    (state : State) (w w' : World) (out : OutputDict) (state' : State) :
  _forward_loop self state None w = Ok (out, state', w') ->
  exists preds,
    predictions out = Some (Dim2 preds) /\
    length preds = length state /\
    forall (b : nat) (s : RowState),
      nth_error state b = Some s ->
      greedy_row self (Z.to_nat (_max_decoding_steps self)) (_start_index self) s
      = Ok (nth b preds []).
Proof.
  intros H. apply forward_loop_inv in H as (sl & sp & preds & Hloop & Hcat & Hp & _).
  apply forward_loop_for_rows in Hloop as (newp & Hsp & L & Hall & Hrow).
  simpl in Hsp. subst sp.
  destruct newp as [| s0 newp]; [discriminate |].
  simpl in Hcat. inversion Hcat as [Epreds]; clear Hcat.
  pose proof (Forall_inv Hall) as Ls0. simpl in Ls0.
  exists preds. split; [assumption |].
  split; [rewrite <- Epreds, length_map, length_seq; exact Ls0 |].
  intros b s Hb.
  assert (Hlt : b < length state) by (apply nth_error_Some; congruence).
  unfold num_decoding_steps in Hrow.
  rewrite (Hrow b (_start_index self) s); [| | exact Hb].
  - f_equal. rewrite <- Epreds. rewrite nth_map_seq by lia. reflexivity.
  - unfold new_full. apply nth_error_repeat. exact Hlt.
Qed.

(** ** [forward] *)

Lemma forward_beam_search_inv (self : MachampSeq2SeqDecoder) (state : State)
    (w w' : World) (ob : OutputDict) :
  _forward_beam_search self state w = Ok (ob, w') ->
  exists top_k log_probabilities,
    ob = mkOutput (Some (Dim3 top_k)) None None (Some log_probabilities).
Proof.
  unfold _forward_beam_search. intros H.
  apply bind_Ok_inv in H as ([top_k lps] & w1 & _ & H).
  apply ret_Ok_inv in H as (-> & _). eauto.
Qed.

(** X13. In training mode with gold targets [forward] is the loop on the
    freshly initialised state: it returns the loop's result, with loss and
    two-dimensional predictions and without log-probabilities, runs no beam
    search and does not update the BLEU metric. *)
Theorem forward_in_training_mode (self : MachampSeq2SeqDecoder)
    (embedded_text : list enc) (source_mask : list (list bool))
    (targets : TextFieldTensors) (w w' : World) (out : OutputDict) :
  training self = true ->
  forward self embedded_text source_mask (Some targets) w = Ok (out, w') ->
  exists state state',
    _init_decoder_state self (mkSource embedded_text source_mask) = Ok state /\
    _forward_loop self state (Some targets) w = Ok (out, state', w') /\
    (exists preds l, predictions out = Some (Dim2 preds) /\ loss out = Some l) /\
    class_log_probabilities out = None /\
    bleu_updates w' = bleu_updates w.
Proof.
  intros Htr H. unfold forward in H.
  apply bind_Ok_inv in H as ([o src] & w1 & H1 & H).
  apply bind_Ok_inv in H1 as (st & w2 & Hinit & H1).
  apply lift_Ok_inv in Hinit as (Hinit & ->).
  apply bind_Ok_inv in H1 as ([o' st'] & w3 & Hloop & H1).
  apply ret_Ok_inv in H1 as (H1 & ->). inversion H1; subst o src; clear H1.
  rewrite Htr in H. simpl in H. apply ret_Ok_inv in H as (-> & ->).
  exists st, st'. split; [assumption |]. split; [assumption |].
  destruct (forward_loop_inv _ _ _ _ _ _ _ Hloop)
    as (sl & sp & preds & Hfor & _ & Hp & _ & Hclp & logits & l & _ & _ & Hl).
  apply forward_loop_for_inv in Hfor
    as (_ & _ & _ & _ & _ & _ & _ & _ & (_ & _ & _ & B) & _).
  split; [eauto |]. split; assumption.
Qed.

(** X14. In evaluation mode [forward] runs beam search on the freshly
    initialised state, also after a loop has run on it, and returns the
    beam's predictions and log-probabilities.  Without gold targets nothing
    else happens and there is no loss.  With gold targets the loop runs
    first; its loss and its predictions (under ["class_probabilities"]) are
    kept, its ["predictions"] are replaced by the beam's, and with BLEU the
    metric is updated once, with the first hypothesis of every batch element
    and the gold targets. *)
Theorem forward_in_evaluation_mode (self : MachampSeq2SeqDecoder)
    (embedded_text : list enc) (source_mask : list (list bool))
    (target_tokens : option TextFieldTensors) (w w' : World) (out : OutputDict) :
  training self = false ->
  forward self embedded_text source_mask target_tokens w = Ok (out, w') ->
  exists state wl ob wb top_k,
    _init_decoder_state self (mkSource embedded_text source_mask) = Ok state /\
    _forward_beam_search self state wl = Ok (ob, wb) /\
    predictions ob = Some (Dim3 top_k) /\
    predictions out = Some (Dim3 top_k) /\
    class_log_probabilities out = class_log_probabilities ob /\
    match target_tokens with
    | None =>
        wl = w /\ w' = wb /\ loss out = None /\ class_probabilities out = None
    | Some targets =>
        exists o state',
          _forward_loop self state (Some targets) w = Ok (o, state', wl) /\
          loss out = loss o /\
          class_probabilities out = predictions o /\
          match _bleu self with
          | None => w' = wb
          | Some _ =>
              exists best,
                best_of top_k = Ok best /\
                rng w' = rng wb /\ drawn w' = drawn wb /\ fed w' = fed wb /\
                bleu_updates w' = bleu_updates wb ++ [(best, rows2 targets)]
          end
    end.
Proof.
  intros Htr H. unfold forward in H.
  apply bind_Ok_inv in H as ([o src] & w1 & H1 & H).
  rewrite Htr in H. simpl in H.
  apply bind_Ok_inv in H as (st2 & w2 & Hinit2 & H).
  apply lift_Ok_inv in Hinit2 as (Hinit2 & ->).
  apply bind_Ok_inv in H as (ob & wb & Hbeam & H).
  destruct (forward_beam_search_inv _ _ _ _ _ Hbeam) as (top_k & lps & Eob).
  destruct target_tokens as [targets |].
  - apply bind_Ok_inv in H1 as (st & w3 & Hinit & H1).
    apply lift_Ok_inv in Hinit as (Hinit & ->).
    apply bind_Ok_inv in H1 as ([o' st'] & w4 & Hloop & H1).
    apply ret_Ok_inv in H1 as (H1 & ->). inversion H1; subst o src; clear H1.
    rewrite (init_of_loop_state _ _ _ _ _ _ _ _ Hinit Hloop) in Hinit2.
    inversion Hinit2; subst st2; clear Hinit2.
    destruct (forward_loop_inv _ _ _ _ _ _ _ Hloop)
      as (_ & _ & preds & _ & _ & Hp & Hcp & _).
    exists st, w4, ob, wb, top_k.
    split; [assumption |]. split; [assumption |].
    subst ob. simpl in H. split; [reflexivity |].
    destruct (_bleu self) as [b |].
    + apply bind_Ok_inv in H as (best & w5 & Hbest & H).
      apply lift_Ok_inv in Hbest as (Hbest & ->).
      apply bind_Ok_inv in H as ([] & w6 & Hcall & H).
      apply ret_Ok_inv in H as (-> & ->).
      unfold bleu_call in Hcall. inversion Hcall; subst w6; clear Hcall.
      simpl. split; [reflexivity |]. split; [reflexivity |].
      exists o', st'. rewrite Hcp, Hp.
      split; [assumption |]. split; [reflexivity |]. split; [reflexivity |].
      exists best. repeat split; assumption.
    + apply ret_Ok_inv in H as (-> & ->).
      simpl. split; [reflexivity |]. split; [reflexivity |].
      exists o', st'. rewrite Hcp, Hp.
      split; [assumption |]. split; [reflexivity |]. split; reflexivity.
  - apply ret_Ok_inv in H1 as (H1 & ->). inversion H1; subst o src; clear H1.
    exists st2, w, ob, wb, top_k.
    split; [assumption |]. split; [assumption |].
    subst ob. simpl in H. apply ret_Ok_inv in H as (-> & ->). simpl.
    repeat split; reflexivity.
Qed.


(** ** The finalizer, further *)

Lemma rmapM_Ok_iff {A B : Type} (f : A -> result B) (l : list A) (l' : list B) :
  rmapM f l = Ok l' <-> Forall2 (fun x y => f x = Ok y) l l'.
Proof.
  revert l'. induction l as [| x l IH]; intros l'; simpl.
  - split; intros H; [inversion H; constructor | inversion H; reflexivity].
  - split.
    + intros H. apply rbind_Ok_inv in H as (y & Hy & H).
      apply rbind_Ok_inv in H as (ys & Hys & H). inversion H; subst.
      constructor; [assumption | apply IH; assumption].
    + intros H. inversion H as [| ? y ? ys Hy Hys]; subst.
      rewrite Hy. simpl. rewrite (proj2 (IH ys) Hys). reflexivity.
Qed.

Lemma rmapM_first_error {A B : Type} (f : A -> result B) (pre rest : list A)
    (x : A) (e : exn) :
  (forall y, In y pre -> exists t, f y = Ok t) ->
  f x = Raise e ->
  rmapM f (pre ++ x :: rest) = Raise e.
Proof.
  induction pre as [| y pre IH]; simpl; intros Hpre Hx.
  - rewrite Hx. reflexivity.
  - destruct (Hpre y (or_introl eq_refl)) as (t & ->). simpl.
    rewrite IH by auto. reflexivity.
Qed.

(** X16. The finalizer returns the tokens of a hypothesis exactly when
    every id before its first end marker is known to the vocabulary, one
    token per such id; ids after the end marker are not looked up.  An
    unknown id that comes before any end marker makes it raise the exception
    of that lookup. *)
Theorem finalizer_looks_up_kept_ids_only (self : MachampSeq2SeqDecoder) :
  (forall (pre post : list Z) (tokens : list string),
      ~ In (_end_index self) pre ->
      predicted_tokens self (pre ++ _end_index self :: post) = Ok tokens <->
      Forall2 (fun x t =>
                 get_token_from_index (vocab self) x (_target_namespace self) = Ok t)
              pre tokens) /\
  (forall (ids : list Z) (tokens : list string),
      ~ In (_end_index self) ids ->
      predicted_tokens self ids = Ok tokens <->
      Forall2 (fun x t =>
                 get_token_from_index (vocab self) x (_target_namespace self) = Ok t)
              ids tokens) /\
  (forall (pre rest : list Z) (x : Z) (e : exn),
      ~ In (_end_index self) pre -> x <> _end_index self ->
      (forall y, In y pre ->
                 exists t, get_token_from_index (vocab self) y
                             (_target_namespace self) = Ok t) ->
      get_token_from_index (vocab self) x (_target_namespace self) = Raise e ->
      predicted_tokens self (pre ++ x :: rest) = Raise e).
Proof.
  split; [| split].
  - intros pre post tokens Hpre. rewrite predicted_tokens_cut by assumption.
    apply rmapM_Ok_iff.
  - intros ids tokens Hids. rewrite predicted_tokens_whole by assumption.
    apply rmapM_Ok_iff.
  - intros pre rest x e Hpre Hx Hknown Hraise.
    destruct (through_end_split (_end_index self) rest)
      as [(r1 & r2 & Hr1 & -> & _) | (Hrest & _)].
    + replace (pre ++ x :: r1 ++ _end_index self :: r2)
        with ((pre ++ x :: r1) ++ _end_index self :: r2)
        by (rewrite <- app_assoc; reflexivity).
      rewrite predicted_tokens_cut.
      * apply rmapM_first_error; assumption.
      * intros Hin. apply in_app_or in Hin as [Hin | [Hin | Hin]]; auto.
    + rewrite predicted_tokens_whole.
      * apply rmapM_first_error; assumption.
      * intros Hin. apply in_app_or in Hin as [Hin | [Hin | Hin]]; auto.
Qed.

(** X17. A two-dimensional array of predictions is finalised as the
    three-dimensional array with one hypothesis per batch element. *)
Theorem finalizer_reads_rows_as_single_beams (self : MachampSeq2SeqDecoder)
    (rows : list (list Z)) :
  make_output_human_readable self (Dim2 rows) =
  make_output_human_readable self (Dim3 (map (fun row => [row]) rows)).
Proof.
  simpl. induction rows as [| r rows IH]; [reflexivity |].
  simpl. rewrite IH. reflexivity.
Qed.

End Properties.

(** * Runs of the small instance *)

#[local] Existing Instance Toy.torch.

(** The spec's example of the finalizer, on a vocabulary of ten tokens. *)
Example finalizer_example :
  make_output_human_readable Toy.ten (Dim2 [[5; 9; 3; 3; 3]%Z])
  = Ok [[["b"; "f"]]]%string.
Proof. reflexivity. Qed.

Lemma init_markers_are_constants_witness :
  exists m,
    __init__ (Toy.args (Toy.vocabulary Toy.tokens_unmarked) None 1%Z 0%Q 1%Q 2%Z)
    = Ok m /\
    _start_index m = 2%Z /\ _end_index m = 3%Z.
Proof.
  destruct (__init__ (Toy.args (Toy.vocabulary Toy.tokens_unmarked) None 1%Z 0%Q
                        1%Q 2%Z)) as [m | e] eqn:E;
    [| vm_compute in E; discriminate].
  exists m. split; [reflexivity |].
  destruct (init_markers_are_constants _ m E) as (Hs & He & _).
  split; assumption.
Defined.


Lemma forward_training_without_targets_witness :
  training Toy.plain = true /\
  forward Toy.plain (src_encoder_outputs Toy.source2)
    (src_source_mask Toy.source2) None (Toy.world0 Toy.alternating)
  = Ok (empty_dict, Toy.world0 Toy.alternating).
Proof.
  split; [reflexivity |].
  apply (forward_training_without_targets Toy.plain). reflexivity.
Defined.

Lemma scheduled_sampling_per_step_witness :
  training Toy.sampled = true /\
  exists out state' w',
    _forward_loop Toy.sampled (Toy.state_of Toy.sampled Toy.source1)
      (Some Toy.targets1) (Toy.world0 Toy.alternating) = Ok (out, state', w') /\
    drawn w' = 2 /\ fed w' = [[2]; [4]]%Z.
Proof.
  split; [reflexivity |].
  destruct (_forward_loop Toy.sampled (Toy.state_of Toy.sampled Toy.source1)
              (Some Toy.targets1) (Toy.world0 Toy.alternating))
    as [[[out state'] w'] | e] eqn:E; [| vm_compute in E; discriminate].
  exists out, state', w'. split; [reflexivity |].
  destruct (scheduled_sampling_per_step Toy.sampled _ _ _ _ _ _ eq_refl E)
    as (inputs & sp & sl & preds & _ & _ & _ & L & _ & F & D & Hstep & _).
  split; [exact D |].
  cbv zeta in Hstep. simpl in L, F. rewrite F.
  destruct inputs as [| i0 [| i1 [| ]]]; try discriminate.
  destruct (Hstep 0 ltac:(simpl; lia)) as (H0 & _).
  destruct (Hstep 1 ltac:(simpl; lia)) as (_ & H1 & _).
  specialize (H0 ltac:(vm_compute; reflexivity)).
  specialize (H1 ltac:(vm_compute; discriminate) Toy.targets1 eq_refl).
  simpl in H0, H1. inversion H1. subst. reflexivity.
Defined.

Lemma decoder_input_attends_with_layer_0_witness :
  _target_embedder Toy.stacked_attentive 4%Z = Ok (Toy.one_hot 6 4) /\
  decoder_input Toy.stacked_attentive 4%Z Toy.row1 =
  Ok (Toy.one_hot 6 5 ++ Toy.one_hot 6 4).
Proof.
  split; [reflexivity |].
  destruct (decoder_input_attends_with_layer_0 Toy.stacked_attentive 4%Z Toy.row1
              (Toy.one_hot 6 4) eq_refl) as (H & _).
  destruct (H Toy.dot_attention [0; 0; 1; 0; 0; 1]%Q [[1; 0; 0; 1; 0; 0]%Q]
              eq_refl eq_refl eq_refl) as (_ & _ & Hin).
  rewrite Hin. vm_compute. reflexivity.
Defined.

(** C2 fails as stated: after one step of the two-layer decoder with
    attention the layers of the hidden state differ, and the input of the
    cell at the next step is not the one the last layer as query would
    give. *)
Lemma attention_query_is_not_the_last_layer :
  exists row0 out top x,
    _init_decoder_state Toy.stacked_attentive Toy.source1 = Ok [row0] /\
    _prepare_output_projections_row Toy.stacked_attentive 2%Z row0
    = Ok (out, Toy.row1) /\
    index_last (decoder_hidden Toy.row1) = Ok top /\
    decoder_input Toy.stacked_attentive 4%Z Toy.row1 = Ok x /\
    x <> @torch_cat Toy.torch
           (@_prepare_attended_input Toy.torch Toy.dot_attention top
              (encoder_outputs Toy.row1) (source_mask Toy.row1))
           (Toy.one_hot 6 4).
Proof.
  do 4 eexists.
  split; [vm_compute; reflexivity |].
  split; [vm_compute; reflexivity |].
  split; [vm_compute; reflexivity |].
  split; [vm_compute; reflexivity |].
  vm_compute. discriminate.
Qed.

Lemma forward_loop_loss_witness :
  exists out state' w',
    _forward_loop Toy.plain (Toy.state_of Toy.plain Toy.source1)
      (Some Toy.targets1) (Toy.world0 Toy.alternating) = Ok (out, state', w') /\
    exists v, loss out = Some v /\ (v == 1 # 2)%Q.
Proof.
  destruct (_forward_loop Toy.plain (Toy.state_of Toy.plain Toy.source1)
              (Some Toy.targets1) (Toy.world0 Toy.alternating))
    as [[[out state'] w'] | e] eqn:E; [| vm_compute in E; discriminate].
  exists out, state', w'. split; [reflexivity |].
  destruct (forward_loop_loss Toy.plain _ _ _ _ _ _ E)
    as (sl & sp & logits & l & Hloop & Hcat & Hg & Hl & _).
  eexists. split; [exact Hl |].
  vm_compute in Hloop. inversion Hloop; subst sl.
  vm_compute in Hcat. inversion Hcat; subst logits.
  vm_compute in Hg. inversion Hg; subst l.
  vm_compute. reflexivity.
Defined.

(** C4 fails as stated: with loss weight 2 the loss of the result is twice
    the loss of section 4.6 divided by the logarithm. *)
Lemma loss_is_scaled_by_the_loss_weight :
  exists out state' w' step_logits step_predictions logits l v,
    _forward_loop Toy.weighted (Toy.state_of Toy.weighted Toy.source1)
      (Some Toy.targets1) (Toy.world0 Toy.alternating) = Ok (out, state', w') /\
    _forward_loop_for Toy.weighted (Some Toy.targets1) (seq 0 2)
      (new_full 1 (_start_index Toy.weighted))
      (Toy.state_of Toy.weighted Toy.source1) [] [] (Toy.world0 Toy.alternating)
    = Ok (state', step_logits, step_predictions, w') /\
    cat_dim1 [] step_logits = Ok logits /\
    _get_loss logits Toy.targets1 (get_text_field_mask Toy.targets1) = Ok l /\
    loss_weight Toy.weighted = 2%Q /\
    loss out = Some v /\
    ~ (v == l / torch_log (out_features (_output_projection_layer Toy.weighted)))%Q.
Proof.
  do 8 eexists.
  split; [vm_compute; reflexivity |].
  split; [vm_compute; reflexivity |].
  split; [vm_compute; reflexivity |].
  split; [vm_compute; reflexivity |].
  split; [reflexivity |].
  split; [vm_compute; reflexivity |].
  vm_compute. discriminate.
Qed.

Lemma first_input_of_the_loop_witness :
  exists out state' w',
    _forward_loop Toy.plain (Toy.state_of Toy.plain Toy.source2) None
      (Toy.world0 Toy.alternating) = Ok (out, state', w') /\
    exists rest, fed w' = [2; 2]%Z :: rest.
Proof.
  destruct (_forward_loop Toy.plain (Toy.state_of Toy.plain Toy.source2) None
              (Toy.world0 Toy.alternating))
    as [[[out state'] w'] | e] eqn:E; [| vm_compute in E; discriminate].
  exists out, state', w'. split; [reflexivity |].
  destruct (first_input_of_the_loop Toy.plain _ _ _ _ _ _ E)
    as (first & rest & F & Hnone & _).
  exists rest. rewrite F, (Hnone eq_refl). reflexivity.
Defined.

(** C8 fails as stated: under teacher forcing the first input is position 0
    of the gold targets, here token 4 and not the start marker 2. *)
Lemma teacher_forcing_feeds_gold_position_0 :
  exists out state' w' rest,
    _scheduled_sampling_ratio Toy.plain = 0%Q /\
    _forward_loop Toy.plain (Toy.state_of Toy.plain Toy.source1)
      (Some Toy.targets_unmarked) (Toy.world0 Toy.alternating)
    = Ok (out, state', w') /\
    fed w' = [4]%Z :: rest /\
    [4]%Z <> new_full 1 (_start_index Toy.plain).
Proof.
  do 4 eexists.
  split; [reflexivity |].
  split; [vm_compute; reflexivity |].
  split; [vm_compute; reflexivity |].
  vm_compute. discriminate.
Qed.



(** ** Runs for the further properties *)

Lemma init_without_target_embedding_dim_witness :
  get_token_index (arg_vocab Toy.args_default_dim)
    (_padding_token (arg_vocab Toy.args_default_dim)) "target_words"%string
  = Ok 0%Z /\
  arg_target_embedding_dim Toy.args_default_dim = None /\
  __init__ Toy.args_default_dim = Raise AttributeError.
Proof.
  split; [reflexivity |]. split; [reflexivity |].
  apply (init_without_target_embedding_dim Toy.args_default_dim 0%Z);
    [reflexivity | left; reflexivity].
Defined.

Lemma init_reads_padding_id_and_size_only_witness :
  get_vocab_size (Toy.vocabulary Toy.tokens_unmarked) "target_words"%string
  = get_vocab_size (Toy.vocabulary Toy.tokens6) "target_words"%string /\
  __init__ (with_vocab (Toy.vocabulary Toy.tokens_unmarked)
              (Toy.args (Toy.vocabulary Toy.tokens6) None 1%Z 0%Q 1%Q 2%Z))
  = Ok (set_vocab (Toy.vocabulary Toy.tokens_unmarked) Toy.plain).
Proof.
  split; [reflexivity |].
  rewrite (init_reads_padding_id_and_size_only
             (Toy.args (Toy.vocabulary Toy.tokens6) None 1%Z 0%Q 1%Q 2%Z)
             (Toy.vocabulary Toy.tokens_unmarked) eq_refl eq_refl).
  reflexivity.
Defined.

Lemma init_wires_cell_beam_and_metric_witness :
  (forall i o : Z, length (LSTM i o 2%Z) = 2) /\
  __init__ (Toy.args (Toy.vocabulary Toy.tokens6) (Some Toy.dot_attention)
              2%Z 0%Q 1%Q 2%Z) = Ok Toy.stacked_attentive /\
  cell_fits Toy.stacked_attentive /\
  bs_beam_size (_beam_search Toy.stacked_attentive) = 1%Z.
Proof.
  split; [intros i o; reflexivity |]. split; [reflexivity |].
  destruct (init_wires_cell_beam_and_metric
              (Toy.args (Toy.vocabulary Toy.tokens6) (Some Toy.dot_attention)
                 2%Z 0%Q 1%Q 2%Z)
              Toy.stacked_attentive (fun i o => eq_refl) eq_refl)
    as (Hfit & _ & Hbeam & _).
  split; [exact Hfit | exact Hbeam].
Defined.


Lemma take_step_keeps_the_group_witness :
  exists lps state' w',
    take_step Toy.plain [2; 2]%Z (Toy.state_of Toy.plain Toy.source2) 0
      (Toy.world0 Toy.alternating) = Ok (lps, state', w') /\
    length lps = 2 /\ fed w' = [[2; 2]%Z] /\ drawn w' = 0.
Proof.
  assert (Hok : is_Ok (take_step Toy.plain [2; 2]%Z
                         (Toy.state_of Toy.plain Toy.source2) 0
                         (Toy.world0 Toy.alternating)) = true)
    by (vm_compute; reflexivity).
  destruct (take_step Toy.plain [2; 2]%Z (Toy.state_of Toy.plain Toy.source2) 0
              (Toy.world0 Toy.alternating))
    as [[[lps state'] w'] | e] eqn:E; [| discriminate Hok].
  exists lps, state', w'. split; [reflexivity |].
  destruct (take_step_keeps_the_group Toy.plain _ _ _ _ _ _ _ E)
    as (_ & L & _ & _ & F & D & _).
  repeat split; assumption.
Defined.


Lemma forward_loop_without_steps_witness :
  num_decoding_steps Toy.plain (Some (mkTensor2 1 [[2]%Z])) = 0 /\
  _forward_loop Toy.plain (Toy.state_of Toy.plain Toy.source1)
    (Some (mkTensor2 1 [[2]%Z])) (Toy.world0 Toy.alternating)
  = Raise RuntimeError.
Proof.
  split; [reflexivity |].
  apply (forward_loop_without_steps Toy.plain). reflexivity.
Defined.

Lemma forward_loop_in_evaluation_mode_witness :
  training Toy.evaluating = false /\
  _scheduled_sampling_ratio Toy.evaluating = (1 # 2)%Q /\
  exists out state' w',
    _forward_loop Toy.evaluating (Toy.state_of Toy.evaluating Toy.source1)
      (Some Toy.targets1) (Toy.world0 Toy.alternating) = Ok (out, state', w') /\
    drawn w' = 0 /\ fed w' = [[2]; [4]]%Z.
Proof.
  split; [reflexivity |]. split; [reflexivity |].
  assert (Hok : is_Ok (_forward_loop Toy.evaluating
                         (Toy.state_of Toy.evaluating Toy.source1)
                         (Some Toy.targets1) (Toy.world0 Toy.alternating)) = true)
    by (vm_compute; reflexivity).
  destruct (_forward_loop Toy.evaluating (Toy.state_of Toy.evaluating Toy.source1)
              (Some Toy.targets1) (Toy.world0 Toy.alternating))
    as [[[out state'] w'] | e] eqn:E; [| discriminate Hok].
  exists out, state', w'. split; [reflexivity |].
  destruct (forward_loop_in_evaluation_mode Toy.evaluating _ _ _ _ _ _ eq_refl E)
    as (D & _ & inputs & F & L & Hstep).
  split; [exact D |]. simpl in F, L. rewrite F.
  destruct inputs as [| i0 [| i1 [| ]]]; try discriminate.
  pose proof (Hstep 0 ltac:(simpl; lia)) as H0.
  pose proof (Hstep 1 ltac:(simpl; lia)) as H1.
  simpl in H0, H1. inversion H0. inversion H1. reflexivity.
Defined.

Lemma forward_loop_output_shape_witness :
  exists out state' w',
    _forward_loop Toy.plain (Toy.state_of Toy.plain Toy.source2)
      (Some (mkTensor2 3 [[2; 4; 3]; [2; 3; 0]]%Z)) (Toy.world0 Toy.alternating)
    = Ok (out, state', w') /\
    length state' = 2 /\ length (fed w') = 2 /\
    exists preds, predictions out = Some (Dim2 preds) /\ length preds = 2.
Proof.
  assert (Hok : is_Ok (_forward_loop Toy.plain
                         (Toy.state_of Toy.plain Toy.source2)
                         (Some (mkTensor2 3 [[2; 4; 3]; [2; 3; 0]]%Z))
                         (Toy.world0 Toy.alternating)) = true)
    by (vm_compute; reflexivity).
  destruct (_forward_loop Toy.plain (Toy.state_of Toy.plain Toy.source2)
              (Some (mkTensor2 3 [[2; 4; 3]; [2; 3; 0]]%Z))
              (Toy.world0 Toy.alternating))
    as [[[out state'] w'] | e] eqn:E; [| discriminate Hok].
  exists out, state', w'. split; [reflexivity |].
  destruct (forward_loop_output_shape Toy.plain _ _ _ _ _ _ E)
    as (_ & (preds & Hp & _ & Lp & _) & _ & _ & Ls & _ & Lf & _).
  split; [exact Ls |]. split; [exact Lf |].
  exists preds. split; assumption.
Defined.

Lemma init_after_the_loop_restarts_witness :
  exists out state' w',
    _init_decoder_state Toy.stacked_attentive Toy.source1
    = Ok (Toy.state_of Toy.stacked_attentive Toy.source1) /\
    _forward_loop Toy.stacked_attentive
      (Toy.state_of Toy.stacked_attentive Toy.source1) (Some Toy.targets1)
      (Toy.world0 Toy.alternating) = Ok (out, state', w') /\
    _init_decoder_state Toy.stacked_attentive (source_of state')
    = Ok (Toy.state_of Toy.stacked_attentive Toy.source1).
Proof.
  assert (Ei : _init_decoder_state Toy.stacked_attentive Toy.source1
               = Ok (Toy.state_of Toy.stacked_attentive Toy.source1))
    by reflexivity.
  assert (Hok : is_Ok (_forward_loop Toy.stacked_attentive
                         (Toy.state_of Toy.stacked_attentive Toy.source1)
                         (Some Toy.targets1) (Toy.world0 Toy.alternating)) = true)
    by (vm_compute; reflexivity).
  destruct (_forward_loop Toy.stacked_attentive
              (Toy.state_of Toy.stacked_attentive Toy.source1)
              (Some Toy.targets1) (Toy.world0 Toy.alternating))
    as [[[out state'] w'] | e] eqn:E; [| discriminate Hok].
  exists out, state', w'. split; [exact Ei |]. split; [reflexivity |].
  exact (proj1 (init_after_the_loop_restarts Toy.stacked_attentive Toy.source1
                  _ (Some Toy.targets1) _ _ _ _ Ei E)).
Defined.

Lemma forward_loop_decodes_each_row_greedily_witness :
  exists out state' w',
    _forward_loop Toy.plain (Toy.state_of Toy.plain Toy.source2) None
      (Toy.world0 Toy.alternating) = Ok (out, state', w') /\
    exists preds, predictions out = Some (Dim2 preds) /\ length preds = 2.
Proof.
  assert (Hok : is_Ok (_forward_loop Toy.plain
                         (Toy.state_of Toy.plain Toy.source2) None
                         (Toy.world0 Toy.alternating)) = true)
    by (vm_compute; reflexivity).
  destruct (_forward_loop Toy.plain (Toy.state_of Toy.plain Toy.source2) None
              (Toy.world0 Toy.alternating))
    as [[[out state'] w'] | e] eqn:E; [| discriminate Hok].
  exists out, state', w'. split; [reflexivity |].
  destruct (forward_loop_decodes_each_row_greedily Toy.plain _ _ _ _ _ E)
    as (preds & Hp & L & _).
  exists preds. split; assumption.
Defined.

Lemma forward_in_training_mode_witness :
  training Toy.plain = true /\
  exists out w',
    forward Toy.plain (src_encoder_outputs Toy.source1)
      (src_source_mask Toy.source1) (Some Toy.targets1)
      (Toy.world0 Toy.alternating) = Ok (out, w') /\
    class_log_probabilities out = None /\ bleu_updates w' = [].
Proof.
  split; [reflexivity |].
  assert (Hok : is_Ok (forward Toy.plain (src_encoder_outputs Toy.source1)
                         (src_source_mask Toy.source1) (Some Toy.targets1)
                         (Toy.world0 Toy.alternating)) = true)
    by (vm_compute; reflexivity).
  destruct (forward Toy.plain (src_encoder_outputs Toy.source1)
              (src_source_mask Toy.source1) (Some Toy.targets1)
              (Toy.world0 Toy.alternating))
    as [[out w'] | e] eqn:E; [| discriminate Hok].
  exists out, w'. split; [reflexivity |].
  destruct (forward_in_training_mode Toy.plain _ _ _ _ _ _ eq_refl E)
    as (_ & _ & _ & _ & _ & Hclp & B).
  split; assumption.
Defined.

Lemma forward_in_evaluation_mode_witness :
  training Toy.evaluating = false /\
  exists out w',
    forward Toy.evaluating (src_encoder_outputs Toy.source1)
      (src_source_mask Toy.source1) (Some Toy.targets1)
      (Toy.world0 Toy.alternating) = Ok (out, w') /\
    exists top_k, predictions out = Some (Dim3 top_k).
Proof.
  split; [reflexivity |].
  assert (Hok : is_Ok (forward Toy.evaluating (src_encoder_outputs Toy.source1)
                         (src_source_mask Toy.source1) (Some Toy.targets1)
                         (Toy.world0 Toy.alternating)) = true)
    by (vm_compute; reflexivity).
  destruct (forward Toy.evaluating (src_encoder_outputs Toy.source1)
              (src_source_mask Toy.source1) (Some Toy.targets1)
              (Toy.world0 Toy.alternating))
    as [[out w'] | e] eqn:E; [| discriminate Hok].
  exists out, w'. split; [reflexivity |].
  destruct (forward_in_evaluation_mode Toy.evaluating _ _ _ _ _ _ eq_refl E)
    as (_ & _ & _ & _ & top_k & _ & _ & _ & Hp & _).
  exists top_k. exact Hp.
Defined.

